(** * GPSTk: broadcast-ephemeris store and propagation core

    A shallow embedding of
    - [dev/ext/lib/GNSSEph/BDSEphemeris.cpp]  (validity window, health gate,
      BeiDou GEO/MEO propagation),
    - [dev/src/GalEphemerisStore.hpp]         (Galileo store lookup),
    - [dev/lib/procframe/SatArcMarker.cpp]    (unstable-period setter, arc
      marking),
    followed by the properties established about them.

    Conventions.
    - A C++ [double] is Rocq's primitive [float] (IEEE 754 binary64): [+ - * /],
      [sqrt], [fabs] and the comparisons are the hardware operations.
    - The transcendental functions of the C library ([sin], [cos], [atan2],
      [fmod]) are not fixed bit for bit by any standard, so they are an
      interface ([Libm]); every general theorem holds for every
      implementation of it.  [RefLibm] is one executable implementation, used
      to run the code on concrete records.
    - A C++ exception is the left summand of [Except]; [GPSTK_RETHROW] in a
      catch-all handler re-raises the same exception, so a
      [try { body } catch(Exception& e) { GPSTK_RETHROW(e); }] is [body].
    - The debug output streamed to [cout] is not modelled. *)

From Stdlib Require Import ZArith Bool List String Lia Floats Uint63.
Import ListNotations.

Set Warnings "-inexact-float".

(* ------------------------------------------------------------------ *)
(** ** Exceptions (Exception.hpp) *)

Module Exc.

(** The only exception class raised by the three source files. *)
Inductive Exception : Type :=
| InvalidRequest (what : string).

Definition Except (T : Type) : Type := (Exception + T)%type.

Definition ret {T : Type} (x : T) : Except T := inr x.

Definition GPSTK_THROW {T : Type} (e : Exception) : Except T := inl e.

Definition bind {T U : Type} (c : Except T) (k : T -> Except U) : Except U :=
  match c with
  | inl e => inl e
  | inr x => k x
  end.

Definition returns {T : Type} (c : Except T) : bool :=
  match c with
  | inl _ => false
  | inr _ => true
  end.

Definition value {T : Type} (c : Except T) : option T :=
  match c with
  | inl _ => None
  | inr x => Some x
  end.

End Exc.
Export Exc.

Declare Scope except_scope.
Delimit Scope except_scope with except.
Notation "x <- c ;; k" := (bind c (fun x => k))
  (at level 61, c at next level, right associativity) : except_scope.
Notation "c ;;; k" := (bind c (fun _ => k))
  (at level 61, right associativity) : except_scope.

(** The message every [dataLoadedFlag] check of the library raises; the
    specification calls this failure DataNotLoaded. *)
Definition DataNotLoaded : Exception := InvalidRequest "Data not loaded".

(* ------------------------------------------------------------------ *)
(** ** Doubles *)

Module Double.

Definition double : Type := float.

Definition SQRT (x : double) : double := PrimFloat.sqrt x.
Definition fabs (x : double) : double := PrimFloat.abs x.

(** Conversion of an integer count to [double] (exact below 2^53). *)
Definition of_Z (z : Z) : double :=
  match z with
  | Z0 => 0%float
  | Zpos _ => PrimFloat.of_uint63 (Uint63.of_Z z)
  | Zneg _ => PrimFloat.opp (PrimFloat.of_uint63 (Uint63.of_Z (- z)))
  end.

(** [x > y] and [x <= y] on doubles; both are false when an operand is NaN. *)
Definition gt (x y : double) : bool := PrimFloat.ltb y x.
Definition le (x y : double) : bool := PrimFloat.leb x y.
Definition ge (x y : double) : bool := PrimFloat.leb y x.

End Double.
Export Double.

(** The C library functions the propagation code calls. *)
Class Libm : Type := {
  sin : double -> double;
  cos : double -> double;
  atan2 : double -> double -> double;
  fmod : double -> double -> double
}.

(** Constants the sources take from headers that are not part of this file
    set: [PI] (GNSSconstants.hpp) and the two members of [WGS84Ellipsoid]
    that [svXvt] reads. *)
Class Constants : Type := {
  PI : double;
  ell_gm : double;
  ell_angVelocity : double
}.

(* ------------------------------------------------------------------ *)
(** ** Time and satellite identifiers *)

(** Modelled from the spec: [CommonTime] (CommonTime.hpp is not under the
    sources).  An instant is a point of one linear time axis, counted in whole
    seconds from the start of week 0 of the record's time system; all times
    compared with each other are in the same time system. *)
Module CommonTime.

Definition CommonTime : Type := Z.

(** [t + seconds], for a whole number of seconds. *)
Definition addSeconds (t : CommonTime) (s : Z) : CommonTime := (t + s)%Z.

(** [t1 - t2], in seconds, as a double. *)
Definition diff (t1 t2 : CommonTime) : double := Double.of_Z (t1 - t2).

Definition gtb (a b : CommonTime) : bool := (b <? a)%Z.
Definition geb (a b : CommonTime) : bool := (b <=? a)%Z.
Definition leb (a b : CommonTime) : bool := (a <=? b)%Z.

Definition FULL_WEEK : Z := 604800.

(** [GPSWeekSecond(t).sow]: seconds of week. *)
Definition sow (t : CommonTime) : double := Double.of_Z (t mod FULL_WEEK).

End CommonTime.
Export CommonTime.

Module SatID.

(** [SatID::SatelliteSystem]. *)
Inductive SatelliteSystem : Type :=
| systemGPS
| systemGalileo
| systemGlonass
| systemGeosync
| systemLEO
| systemTransit
| systemBeiDou
| systemQZSS
| systemMixed
| systemUserDefined
| systemUnknown.

Definition SatelliteSystem_eqb (a b : SatelliteSystem) : bool :=
  match a, b with
  | systemGPS, systemGPS | systemGalileo, systemGalileo
  | systemGlonass, systemGlonass | systemGeosync, systemGeosync
  | systemLEO, systemLEO | systemTransit, systemTransit
  | systemBeiDou, systemBeiDou | systemQZSS, systemQZSS
  | systemMixed, systemMixed | systemUserDefined, systemUserDefined
  | systemUnknown, systemUnknown => true
  | _, _ => false
  end.

Record SatID : Type := mkSatID {
  id : Z;                       (* int id: the PRN *)
  system : SatelliteSystem
}.

End SatID.
Export SatID.

(* ------------------------------------------------------------------ *)
(** ** Propagation output (Xvt.hpp) and matrices (Matrix.hpp) *)

Module Xvt.

Inductive ReferenceFrame : Type :=
| Unknown
| WGS84
| PZ90.

Definition Triple : Type := (double * double * double)%type.

Record Xvt : Type := mkXvt {
  x : Triple;                   (* position, m *)
  v : Triple;                   (* velocity, m/s *)
  clkbias : double;
  clkdrift : double;
  relcorr : double;
  frame : ReferenceFrame
}.

End Xvt.
Export Xvt.

(** Modelled from the spec: [gpstk::Matrix<double>] and its [operator*]
    (Matrix.hpp is not under the sources).  A matrix is the list of its rows;
    entry (i,j) of a product is the sum over k of l(i,k) * r(k,j),
    accumulated from zero in increasing k. *)
Module Matrix.

Local Open Scope float_scope.

Definition Matrix : Type := list (list double).

Definition at_ (m : Matrix) (i j : nat) : double := nth j (nth i m []) 0.

Definition cols (m : Matrix) : nat :=
  match m with
  | [] => 0%nat
  | r :: _ => List.length r
  end.

Definition column (m : Matrix) (j : nat) : list double :=
  map (fun r => nth j r 0) m.

Definition accumulate (row col : list double) : double :=
  fold_left (fun acc lr => acc + fst lr * snd lr) (combine row col) 0.

Definition mul (l r : Matrix) : Matrix :=
  map (fun row => map (fun j => accumulate row (column r j)) (seq 0 (cols r))) l.

End Matrix.

(* ------------------------------------------------------------------ *)
(** ** BDSEphemeris (BDSEphemeris.cpp) *)

Module BDSEphemeris.

(** The members of [OrbitEph] and [BDSEphemeris] that the methods under
    study read or write. *)
Record BDSEphemeris : Type := mkBDSEphemeris {
  dataLoadedFlag : bool;
  satID : SatID;
  ctToe : CommonTime;
  ctToc : CommonTime;
  transmitTime : CommonTime;
  beginValid : CommonTime;
  endValid : CommonTime;
  health : Z;                   (* short health *)
  af0 : double; af1 : double; af2 : double;
  M0 : double; dn : double; dndot : double;
  ecc : double;
  A : double; Adot : double;
  OMEGA0 : double; i0 : double; w : double;
  OMEGAdot : double; idot : double;
  Cuc : double; Cus : double;
  Crc : double; Crs : double;
  Cic : double; Cis : double
}.

(** The methods [BDSEphemeris::svXvt] inherits from [OrbitEph] and calls;
    OrbitEph.cpp is not under the sources, so they are an interface.  The
    three clock methods raise only for a record without data, which [svXvt]
    has excluded before it calls them. *)
Class OrbitEphBase : Type := {
  OrbitEph_svXvt : BDSEphemeris -> CommonTime -> Except Xvt;
  svRelativity : BDSEphemeris -> CommonTime -> double;
  svClockBias : BDSEphemeris -> CommonTime -> double;
  svClockDrift : BDSEphemeris -> CommonTime -> double
}.

(** Modelled from the spec: the [OrbitEph] versions of [isHealthy] and
    [adjustValidity] (OrbitEph.hpp is not under the sources), which the
    BeiDou overrides call for the data-loaded check only. *)
Definition OrbitEph_isHealthy (eph : BDSEphemeris) : Except bool :=
  if dataLoadedFlag eph then ret true else GPSTK_THROW DataNotLoaded.

Definition OrbitEph_adjustValidity (eph : BDSEphemeris) : Except unit :=
  if dataLoadedFlag eph then ret tt else GPSTK_THROW DataNotLoaded.

(** [bool BDSEphemeris::isValid(const CommonTime& ct) const] *)
Definition isValid (eph : BDSEphemeris) (ct : CommonTime) : bool :=
  if CommonTime.geb ct (beginValid eph) && CommonTime.leb ct (endValid eph)
  then true
  else false.

Local Open Scope except_scope.

(** [bool BDSEphemeris::isHealthy(void) const] *)
Definition isHealthy (eph : BDSEphemeris) : Except bool :=
  OrbitEph_isHealthy eph ;;;          (* return value ignored *)
  if (health eph =? 0)%Z then ret true else ret false.

Definition set_beginValid (eph : BDSEphemeris) (t : CommonTime) : BDSEphemeris :=
  mkBDSEphemeris (dataLoadedFlag eph) (satID eph) (ctToe eph) (ctToc eph)
    (transmitTime eph) t (endValid eph) (health eph)
    (af0 eph) (af1 eph) (af2 eph) (M0 eph) (dn eph) (dndot eph) (ecc eph)
    (A eph) (Adot eph) (OMEGA0 eph) (i0 eph) (w eph) (OMEGAdot eph) (idot eph)
    (Cuc eph) (Cus eph) (Crc eph) (Crs eph) (Cic eph) (Cis eph).

Definition set_endValid (eph : BDSEphemeris) (t : CommonTime) : BDSEphemeris :=
  mkBDSEphemeris (dataLoadedFlag eph) (satID eph) (ctToe eph) (ctToc eph)
    (transmitTime eph) (beginValid eph) t (health eph)
    (af0 eph) (af1 eph) (af2 eph) (M0 eph) (dn eph) (dndot eph) (ecc eph)
    (A eph) (Adot eph) (OMEGA0 eph) (i0 eph) (w eph) (OMEGAdot eph) (idot eph)
    (Cuc eph) (Cus eph) (Crc eph) (Crs eph) (Cic eph) (Cis eph).

(** [void BDSEphemeris::adjustValidity(void)]: the record after the call. *)
Definition adjustValidity (eph : BDSEphemeris) : Except BDSEphemeris :=
  OrbitEph_adjustValidity eph ;;;     (* for dataLoaded check *)
  let eph := set_beginValid eph (ctToe eph) in
  let eph :=
    if CommonTime.gtb (transmitTime eph) (beginValid eph)
    then set_beginValid eph (transmitTime eph)
    else eph in
  let eph := set_endValid eph (CommonTime.addSeconds (ctToe eph) 3600) in
  ret eph.

Section Propagation.

Context {libm : Libm} {consts : Constants} {base : OrbitEphBase}.

Local Open Scope float_scope.

(** The body of the do-while loop that solves Kepler's equation, followed by
    its test; [fuel] bounds the number of further iterations. *)
Fixpoint kepler_do_while (fuel : nat) (meana lecc ea : double) (loop_cnt : Z)
  : double * double * Z :=
  let F := meana - (ea - lecc * sin ea) in
  let G := 1.0 - lecc * cos ea in
  let delea := F / G in
  let ea := ea + delea in
  let loop_cnt := (loop_cnt + 1)%Z in
  if Double.gt (fabs delea) 1.0e-11 && (loop_cnt <=? 20)%Z then
    match fuel with
    | S fuel' => kepler_do_while fuel' meana lecc ea loop_cnt
    | O => (ea, delea, loop_cnt)
    end
  else (ea, delea, loop_cnt).

(** [elapte = t - ctToe] *)
Definition elapte (eph : BDSEphemeris) (t : CommonTime) : double :=
  CommonTime.diff t (ctToe eph).

(** Mean anomaly at [t], reduced by [fmod]. *)
Definition meana (eph : BDSEphemeris) (t : CommonTime) : double :=
  let sqrtgm := SQRT ell_gm in
  let twoPI := 2.0e0 * PI in
  let Ahalf := SQRT (A eph) in
  let elapte := elapte eph t in
  let dnA := dn eph + 0.5 * dndot eph * elapte in
  let amm := (sqrtgm / (A eph * Ahalf)) + dnA in
  let meana := M0 eph + elapte * amm in
  fmod meana twoPI.

(** The state [(ea, delea, loop_cnt)] with which the Kepler loop is left. *)
Definition kepler (eph : BDSEphemeris) (t : CommonTime) : double * double * Z :=
  let meana := meana eph t in
  let lecc := ecc eph in
  let ea := meana + lecc * sin meana in
  kepler_do_while 20 meana lecc ea 1.

(** True when the loop was left by the iteration cap with the last increment
    still above the threshold. *)
Definition kepler_cap_exceeded (eph : BDSEphemeris) (t : CommonTime) : bool :=
  let '(_, delea, loop_cnt) := kepler eph t in
  Double.gt (fabs delea) 1.0e-11 && (20 <? loop_cnt)%Z.

(** [(xGK, yGK, zGK)] computed from an eccentric anomaly [ea]:
    true anomaly, second-harmonic corrections, node and inclination. *)
Definition inertialPos_of (eph : BDSEphemeris) (t : CommonTime) (ea : double)
  : Triple :=
  let lecc := ecc eph in
  let tdrinc := idot eph in
  let ToeSOW := CommonTime.sow (ctToe eph) in
  let elapte := elapte eph t in
  let Ak := A eph + Adot eph * elapte in
  let q := SQRT (1.0e0 - lecc * lecc) in
  let sinea := sin ea in
  let cosea := cos ea in
  let G := 1.0e0 - lecc * cosea in
  let GSTA := q * sinea in
  let GCTA := cosea - lecc in
  let truea := atan2 GSTA GCTA in
  let alat := truea + w eph in
  let talat := 2.0e0 * alat in
  let c2al := cos talat in
  let s2al := sin talat in
  let du := c2al * Cuc eph + s2al * Cus eph in
  let dr := c2al * Crc eph + s2al * Crs eph in
  let di := c2al * Cic eph + s2al * Cis eph in
  let U := alat + du in
  let R := Ak * G + dr in
  let AINC := i0 eph + tdrinc * elapte + di in
  let ANLON := OMEGA0 eph + OMEGAdot eph * elapte - ell_angVelocity * ToeSOW in
  let cosu := cos U in
  let sinu := sin U in
  let xip := R * cosu in
  let yip := R * sinu in
  let can := cos ANLON in
  let san := sin ANLON in
  let cinc := cos AINC in
  let sinc := sin AINC in
  let xGK := xip * can - yip * cinc * san in
  let yGK := xip * san + yip * cinc * can in
  let zGK := yip * sinc in
  (xGK, yGK, zGK).

Definition inertialPos (eph : BDSEphemeris) (t : CommonTime) : Triple :=
  let '(ea, _, _) := kepler eph t in
  inertialPos_of eph t ea.

(** The matrix the source names [matZ] (comment: Rz matrix). *)
Definition matZ (angleZ : double) : Matrix.Matrix :=
  let cosZ := cos angleZ in
  let sinZ := sin angleZ in
  [ [ 1.0;   0.0;  0.0 ];
    [ 0.0;  cosZ; sinZ ];
    [ 0.0; -sinZ; cosZ ] ].

(** The matrix the source names [matX] (comment: Rx matrix). *)
Definition angleX : double := -5.0 * PI / 180.0.

Definition matX : Matrix.Matrix :=
  let cosX := cos angleX in
  let sinX := sin angleX in
  [ [  cosX; sinX; 0.0 ];
    [ -sinX; cosX; 0.0 ];
    [   0.0;  0.0; 1.0 ] ].

Definition column_of (p : Triple) : Matrix.Matrix :=
  let '(a, b, c) := p in [ [a]; [b]; [c] ].

Definition triple_of (m : Matrix.Matrix) : Triple :=
  (Matrix.at_ m 0 0, Matrix.at_ m 1 0, Matrix.at_ m 2 0).

(** The GEO branch of [svXvt] (PRN 1-5), from [Xvt sv;] to [return sv;]. *)
Definition svXvt_GEO (eph : BDSEphemeris) (t : CommonTime) : Xvt :=
  let inertialPos := column_of (inertialPos eph t) in
  let angleZ := ell_angVelocity * elapte eph t in
  let result := Matrix.mul (Matrix.mul (matZ angleZ) matX) inertialPos in
  mkXvt (triple_of result)
        (0.0, 0.0, 0.0)
        (svClockBias eph t)
        (svClockDrift eph t)
        (svRelativity eph t)
        WGS84.

(** [Xvt BDSEphemeris::svXvt(const CommonTime& t) const] *)
Definition svXvt (eph : BDSEphemeris) (t : CommonTime) : Except Xvt :=
  if negb (dataLoadedFlag eph) then GPSTK_THROW (InvalidRequest "Data not loaded")
  else if (id (satID eph) >? 5)%Z then OrbitEph_svXvt eph t
  else ret (svXvt_GEO eph t).

End Propagation.

End BDSEphemeris.

(* ------------------------------------------------------------------ *)
(** ** GalEphemerisStore (GalEphemerisStore.hpp) *)

Module GalEphemerisStore.

Section Store.

(** The stored record type, and the inherited [OrbitEphStore::findOrbitEph]
    of this store (OrbitEphStore.cpp is not under the sources); a NULL result
    is [None].  The store only holds [GalEphemeris] objects, so the
    [dynamic_cast] of a non-NULL result is that object. *)
Variable GalEphemeris : Type.
Variable findOrbitEph : SatID -> CommonTime -> option GalEphemeris.

(** [const GalEphemeris& findEphemeris(const SatID& sat, const CommonTime& t) const] *)
Definition findEphemeris (sat : SatID) (t : CommonTime) : Except GalEphemeris :=
  if negb (SatelliteSystem_eqb (system sat) systemBeiDou)
  then GPSTK_THROW (InvalidRequest "Invalid satellite system")
  else
    match findOrbitEph sat t with
    | None => GPSTK_THROW (InvalidRequest "Ephemeris not found")
    | Some geph => ret geph
    end.

End Store.

(** The satellite system whose records the class stores (class name, file
    header, [timeSystem = TimeSystem::GAL], and the contract of
    [addEphemeris]: rejects a satellite that is not Galileo). *)
Definition storeSystem : SatelliteSystem := systemGalileo.

(** The exception of the constellation test of [findEphemeris]. *)
Definition WrongSystem : Exception := InvalidRequest "Invalid satellite system".

End GalEphemerisStore.

(* ------------------------------------------------------------------ *)
(** ** SatArcMarker (SatArcMarker.cpp) *)

Module SatArcMarker.

Local Open Scope float_scope.

Section Marker.

Variable TypeID : Type.

(** The members the constructor and [setUnstablePeriod] write; the three
    per-satellite maps start empty and are only touched by [Process]. *)
Record SatArcMarker : Type := mkSatArcMarker {
  watchCSFlag : TypeID;
  deleteUnstableSats : bool;
  unstablePeriod : double;
  index : Z
}.

(** Common constructor.  [setIndex()] takes the next value of the static
    [classIndex], which is threaded through as state. *)
Definition new (classIndex : Z) (watchFlag : TypeID) (delUnstableSats : bool)
  (unstableTime : double) : SatArcMarker * Z :=
  let unstablePeriod :=
    if Double.gt unstableTime 0.0 then unstableTime else 0.0 in
  (mkSatArcMarker watchFlag delUnstableSats unstablePeriod classIndex,
   (classIndex + 1)%Z).

(** [SatArcMarker& setUnstablePeriod(const double unstableTime)] *)
Definition setUnstablePeriod (this : SatArcMarker) (unstableTime : double)
  : SatArcMarker :=
  let unstablePeriod :=
    if Double.gt unstableTime 0.0 then unstableTime else 0.0 in
  mkSatArcMarker (watchCSFlag this) (deleteUnstableSats this) unstablePeriod
    (index this).

End Marker.

Arguments watchCSFlag {TypeID} _.
Arguments deleteUnstableSats {TypeID} _.
Arguments unstablePeriod {TypeID} _.
Arguments index {TypeID} _.
Arguments new {TypeID} _ _ _ _.
Arguments setUnstablePeriod {TypeID} _ _.

(** Index initially assigned to this class. *)
Definition classIndex : Z := 2900000.

End SatArcMarker.

(* ------------------------------------------------------------------ *)
(** ** A reference C library *)

(** An executable implementation of [Libm] on binary64, used to run the
    code on concrete records.  [sin], [cos] and [atan2] are computed by
    argument reduction and power series, aiming at a few units in the last
    place for arguments of moderate size; [fmod] subtracts exactly, as the C
    function does.  NaN and infinite arguments give NaN as in C, except
    [atan2] of two infinities.  No accuracy statement is proved or needed:
    the general theorems quantify over every [Libm]. *)
Module RefLibm.

Local Open Scope float_scope.

Definition two52 : double := 0x1p52.

(** Nearest integer, for arguments below 2^51 in magnitude. *)
Definition rint (x : double) : double :=
  if PrimFloat.ltb x 0 then (x - two52) + two52 else (x + two52) - two52.

(** Rounding toward zero. *)
Definition trunc (x : double) : double :=
  if PrimFloat.ltb (fabs x) two52 then
    let r := rint x in
    if PrimFloat.ltb x 0
    then (if PrimFloat.ltb r x then r + 1 else r)
    else (if PrimFloat.ltb x r then r - 1 else r)
  else x.

Definition floor (x : double) : double :=
  let r := trunc x in
  if PrimFloat.ltb x r then r - 1 else r.

(** Remainder of [r] by [y] for [0 <= r] and [0 < y]: first modulo [2 y],
    then modulo [y]; every subtraction is exact. *)
Fixpoint fmod_pos (fuel : nat) (r y : double) : double :=
  if PrimFloat.ltb r y then r
  else
    match fuel with
    | O => r
    | S fuel' =>
        let r' := fmod_pos fuel' r (y + y) in
        if PrimFloat.leb y r' then r' - y else r'
    end.

Definition fmod (x y : double) : double :=
  if PrimFloat.is_nan x || PrimFloat.is_nan y
     || PrimFloat.eqb y 0 || PrimFloat.eqb (fabs x) infinity then nan
  else if PrimFloat.ltb (fabs x) (fabs y) then x
  else
    let r := fmod_pos 2100 (fabs x) (fabs y) in
    if PrimFloat.ltb x 0 then - r else r.

(** Alternating power series: adds [n] further terms, each obtained from the
    previous one by the factor [- r2 / ((k+1)(k+2))]. *)
Fixpoint series (n : nat) (k term sum r2 : double) : double :=
  match n with
  | O => sum
  | S n' =>
      let term' := - term * r2 / ((k + 1) * (k + 2)) in
      series n' (k + 2) term' (sum + term') r2
  end.

Definition sin_kernel (r : double) : double := series 10 1 r r (r * r).
Definition cos_kernel (r : double) : double := series 10 0 1 1 (r * r).

(** pi/2 in three pieces; the first two have 33 significant bits, so their
    products by an integer below 2^20 are exact. *)
Definition pio2_1 : double := 0x1.921fb544p+0.
Definition pio2_2 : double := 0x1.0b4611a6p-34.
Definition pio2_3 : double := 0x1.3198a2e037073p-69.
Definition two_over_pi : double := 0x1.45f306dc9c883p-1.

(** [x = k * pi/2 + r] with [r] in [-pi/4, pi/4]: returns [(k mod 4, r)]. *)
Definition reduce (x : double) : double * double :=
  let k := rint (x * two_over_pi) in
  let r := ((x - k * pio2_1) - k * pio2_2) - k * pio2_3 in
  (k - 4 * floor (k / 4), r).

Definition sin (x : double) : double :=
  let '(q, r) := reduce x in
  if PrimFloat.eqb q 0 then sin_kernel r
  else if PrimFloat.eqb q 1 then cos_kernel r
  else if PrimFloat.eqb q 2 then - sin_kernel r
  else if PrimFloat.eqb q 3 then - cos_kernel r
  else nan.

Definition cos (x : double) : double :=
  let '(q, r) := reduce x in
  if PrimFloat.eqb q 0 then cos_kernel r
  else if PrimFloat.eqb q 1 then - sin_kernel r
  else if PrimFloat.eqb q 2 then - cos_kernel r
  else if PrimFloat.eqb q 3 then sin_kernel r
  else nan.

(** Gregory series for the arc tangent: adds [n] further terms. *)
Fixpoint atan_series (n : nat) (k pow sum z2 : double) : double :=
  match n with
  | O => sum
  | S n' =>
      let pow' := - pow * z2 in
      atan_series n' (k + 2) pow' (sum + pow' / (k + 2)) z2
  end.

Definition atan_kernel (z : double) : double := atan_series 24 1 z z (z * z).

Definition pi : double := 0x1.921fb54442d18p+1.
Definition tan_pio8 : double := 0x1.a827999fcef32p-2.

Definition atan_pos (z : double) : double :=
  let atan01 (u : double) :=
    if PrimFloat.ltb tan_pio8 u
    then pi / 4 + atan_kernel ((u - 1) / (u + 1))
    else atan_kernel u in
  if PrimFloat.ltb 1 z then pi / 2 - atan01 (1 / z) else atan01 z.

Definition atan (z : double) : double :=
  if PrimFloat.ltb z 0 then - atan_pos (- z) else atan_pos z.

(** Sign bit of a number that is not NaN. *)
Definition signbit (x : double) : bool :=
  PrimFloat.ltb x 0 || (PrimFloat.eqb x 0 && PrimFloat.ltb (1 / x) 0).

Definition atan2 (y x : double) : double :=
  if PrimFloat.is_nan x || PrimFloat.is_nan y then nan
  else if PrimFloat.ltb 0 x then atan (y / x)
  else if PrimFloat.ltb x 0 then
    (if signbit y then atan (y / x) - pi else atan (y / x) + pi)
  else if PrimFloat.ltb 0 y then pi / 2
  else if PrimFloat.ltb y 0 then - (pi / 2)
  else if signbit x then (if signbit y then - pi else pi)
  else y.

End RefLibm.

#[export] Instance ref_libm : Libm := {
  sin := RefLibm.sin;
  cos := RefLibm.cos;
  atan2 := RefLibm.atan2;
  fmod := RefLibm.fmod
}.

(** The values of the GPSTk headers: [PI] of GNSSconstants.hpp and
    [WGS84Ellipsoid::gm()], [WGS84Ellipsoid::angVelocity()]. *)
#[export] Instance gpstk_constants : Constants := {
  PI := 3.1415926535898%float;
  ell_gm := 3986004.418e8%float;
  ell_angVelocity := 7.292115e-5%float
}.

(** Modelled from the spec: the [OrbitEph] methods behind [OrbitEphBase]
    (OrbitEph.cpp is not under the sources), as section 4.2 describes
    Variant A: the same Kepler solution and in-plane computation, the
    standard node rotation into the Earth-fixed frame, the velocity by the
    analytic differentiation that BDSEphemeris.cpp keeps in a comment, the
    clock polynomial and the standard relativity term.  It is used to run
    the code on concrete records; the general theorems hold for every
    [OrbitEphBase]. *)
Module RefOrbitEph.

Import BDSEphemeris.

Section VariantA.

Context {libm : Libm} {consts : Constants}.

Local Open Scope float_scope.

Definition REL_CONST : double := -4.442807633e-10.

Definition svClockBias (eph : BDSEphemeris) (t : CommonTime) : double :=
  let elaptc := CommonTime.diff t (ctToc eph) in
  af0 eph + elaptc * (af1 eph + elaptc * af2 eph).

Definition svClockDrift (eph : BDSEphemeris) (t : CommonTime) : double :=
  let elaptc := CommonTime.diff t (ctToc eph) in
  af1 eph + elaptc * af2 eph.

Definition svRelativity (eph : BDSEphemeris) (t : CommonTime) : double :=
  let '(ea, _, _) := kepler eph t in
  REL_CONST * ecc eph * SQRT (A eph) * sin ea.

Definition svXvt (eph : BDSEphemeris) (t : CommonTime) : Except Xvt :=
  if negb (dataLoadedFlag eph) then GPSTK_THROW DataNotLoaded
  else
  let '(ea, _, _) := kepler eph t in
  let sqrtgm := SQRT ell_gm in
  let lecc := ecc eph in
  let tdrinc := idot eph in
  let Ahalf := SQRT (A eph) in
  let ToeSOW := CommonTime.sow (ctToe eph) in
  let elapte := elapte eph t in
  let Ak := A eph + Adot eph * elapte in
  let dnA := dn eph + 0.5 * dndot eph * elapte in
  let amm := (sqrtgm / (A eph * Ahalf)) + dnA in
  let q := SQRT (1.0e0 - lecc * lecc) in
  let sinea := sin ea in
  let cosea := cos ea in
  let G := 1.0e0 - lecc * cosea in
  let GSTA := q * sinea in
  let GCTA := cosea - lecc in
  let truea := atan2 GSTA GCTA in
  let alat := truea + w eph in
  let talat := 2.0e0 * alat in
  let c2al := cos talat in
  let s2al := sin talat in
  let du := c2al * Cuc eph + s2al * Cus eph in
  let dr := c2al * Crc eph + s2al * Crs eph in
  let di := c2al * Cic eph + s2al * Cis eph in
  let U := alat + du in
  let R := Ak * G + dr in
  let AINC := i0 eph + tdrinc * elapte + di in
  let ANLON := OMEGA0 eph + (OMEGAdot eph - ell_angVelocity) * elapte
               - ell_angVelocity * ToeSOW in
  let cosu := cos U in
  let sinu := sin U in
  let xip := R * cosu in
  let yip := R * sinu in
  let can := cos ANLON in
  let san := sin ANLON in
  let cinc := cos AINC in
  let sinc := sin AINC in
  let xef := xip * can - yip * cinc * san in
  let yef := xip * san + yip * cinc * can in
  let zef := yip * sinc in
  let dek := amm * Ak / R in
  let dlk := Ahalf * q * sqrtgm / (R * R) in
  let div := tdrinc - 2.0e0 * dlk * (Cic eph * s2al - Cis eph * c2al) in
  let domk := OMEGAdot eph - ell_angVelocity in
  let duv := dlk * (1.0e0 + 2.0e0 * (Cus eph * c2al - Cuc eph * s2al)) in
  let drv := Ak * lecc * dek * sinea
             - 2.0e0 * dlk * (Crc eph * s2al - Crs eph * c2al) in
  let dxp := drv * cosu - R * sinu * duv in
  let dyp := drv * sinu + R * cosu * duv in
  let vxef := dxp * can - xip * san * domk - dyp * cinc * san
              + yip * (sinc * san * div - cinc * can * domk) in
  let vyef := dxp * san + xip * can * domk + dyp * cinc * can
              - yip * (sinc * can * div + cinc * san * domk) in
  let vzef := dyp * sinc + yip * cinc * div in
  ret (mkXvt (xef, yef, zef) (vxef, vyef, vzef)
             (svClockBias eph t) (svClockDrift eph t) (svRelativity eph t)
             WGS84).

End VariantA.

End RefOrbitEph.

#[export] Instance ref_base : BDSEphemeris.OrbitEphBase := {
  BDSEphemeris.OrbitEph_svXvt := RefOrbitEph.svXvt;
  BDSEphemeris.svRelativity := RefOrbitEph.svRelativity;
  BDSEphemeris.svClockBias := RefOrbitEph.svClockBias;
  BDSEphemeris.svClockDrift := RefOrbitEph.svClockDrift
}.

(* ------------------------------------------------------------------ *)
(** ** The specification's wording of the GEO rotation, and the branches *)

Module GeoSpec.

Import BDSEphemeris.

Section Rotations.

Context {libm : Libm} {consts : Constants}.

Local Open Scope float_scope.

(** Frame rotation about the first coordinate axis by [phi]: the first
    coordinate is kept. *)
Definition rotation_first_axis (phi : double) : Matrix.Matrix :=
  [ [ 1.0;       0.0;     0.0 ];
    [ 0.0;   cos phi; sin phi ];
    [ 0.0; - sin phi; cos phi ] ].

(** Frame rotation about the third coordinate axis by [phi]: the third
    coordinate is kept. *)
Definition rotation_third_axis (phi : double) : Matrix.Matrix :=
  [ [   cos phi; sin phi; 0.0 ];
    [ - sin phi; cos phi; 0.0 ];
    [       0.0;     0.0; 1.0 ] ].

(** Section 4.2, Variant B: the intermediate vector left-multiplied by
    (third-axis rotation by earthRotationRate * elapsed) composed with
    (first-axis rotation by the constant tilt). *)
Definition spec_position_tilt (tilt : double) (eph : BDSEphemeris)
  (t : CommonTime) : Triple :=
  triple_of
    (Matrix.mul
       (Matrix.mul (rotation_third_axis (ell_angVelocity * elapte eph t))
                   (rotation_first_axis tilt))
       (column_of (inertialPos eph t))).

Definition spec_position (eph : BDSEphemeris) (t : CommonTime) : Triple :=
  spec_position_tilt angleX eph t.

End Rotations.

(** The three ways [svXvt] can leave, decided by its two tests. *)
Inductive Branch : Type :=
| ThrowDataNotLoaded
| StandardOrbitEph
| GeoVariant.

Definition svXvt_branch (eph : BDSEphemeris) : Branch :=
  if negb (dataLoadedFlag eph) then ThrowDataNotLoaded
  else if (id (satID eph) >? 5)%Z then StandardOrbitEph
  else GeoVariant.

End GeoSpec.

(* ------------------------------------------------------------------ *)
(** ** Concrete records *)

Module Records.

Import BDSEphemeris.

Local Open Scope float_scope.

(** Start of week 500 of the time axis. *)
Definition T0 : CommonTime := (500 * CommonTime.FULL_WEEK)%Z.

(** A loaded record with every orbital and clock term zero except the
    semi-major axis of a geostationary orbit, 42164 km. *)
Definition blank (prn : Z) (toe transmit : CommonTime) : BDSEphemeris :=
  mkBDSEphemeris true (mkSatID prn systemBeiDou) toe toe transmit toe toe 0%Z
    0 0 0          (* af0 af1 af2 *)
    0 0 0          (* M0 dn dndot *)
    0              (* ecc *)
    4.2164e7 0     (* A Adot *)
    0 0 0          (* OMEGA0 i0 w *)
    0 0            (* OMEGAdot idot *)
    0 0 0 0 0 0.

Definition with_anomaly (eph : BDSEphemeris) (m0 e : double) : BDSEphemeris :=
  mkBDSEphemeris (dataLoadedFlag eph) (satID eph) (ctToe eph) (ctToc eph)
    (transmitTime eph) (beginValid eph) (endValid eph) (health eph)
    (af0 eph) (af1 eph) (af2 eph) m0 (dn eph) (dndot eph) e
    (A eph) (Adot eph) (OMEGA0 eph) (i0 eph) (w eph) (OMEGAdot eph) (idot eph)
    (Cuc eph) (Cus eph) (Crc eph) (Crs eph) (Cic eph) (Cis eph).

(** PRN 1 (GEO), circular equatorial orbit, node and anomaly zero. *)
Definition geo_c01 : BDSEphemeris := blank 1 T0 T0.

(** The same record under satellite id 0, which is no PRN. *)
Definition geo_id0 : BDSEphemeris := blank 0 T0 T0.

(** PRN 3 (GEO) with mean anomaly 0.2 rad and eccentricity 1.25. *)
Definition geo_c03 : BDSEphemeris := with_anomaly (blank 3 T0 T0) 0.2 1.25.

(** PRN 11 (MEO), eccentricity 0.01 and mean anomaly 1 rad. *)
Definition meo_c11 : BDSEphemeris := with_anomaly (blank 11 T0 T0) 1.0 0.01.

(** Toe = T0 with the message transmitted 300 s earlier, 120 s later, and
    two hours later. *)
Definition early_tx : BDSEphemeris := blank 8 T0 (T0 - 300)%Z.
Definition late_tx : BDSEphemeris := blank 8 T0 (T0 + 120)%Z.
Definition stale_tx : BDSEphemeris := blank 8 T0 (T0 + 7200)%Z.

(** PRN 2 with health code 1, and PRN 2 before any data were loaded. *)
Definition unhealthy : BDSEphemeris :=
  mkBDSEphemeris true (mkSatID 2 systemBeiDou) T0 T0 T0 T0 T0 1%Z
    0 0 0 0 0 0 0 4.2164e7 0 0 0 0 0 0 0 0 0 0 0 0.

Definition unloaded : BDSEphemeris :=
  mkBDSEphemeris false (mkSatID 2 systemBeiDou) T0 T0 T0 T0 T0 0%Z
    0 0 0 0 0 0 0 4.2164e7 0 0 0 0 0 0 0 0 0 0 0 0.

(** A record whose validity window is [T0, T0 + 3600]. *)
Definition windowed : BDSEphemeris :=
  set_endValid (blank 8 T0 T0) (T0 + 3600)%Z.

End Records.

(* ------------------------------------------------------------------ *)
(** ** SatArcMarker::Process (SatArcMarker.cpp) *)

(** The data structures of DataStructures.hpp and the classes [TypeID] and
    [DayTime] are not under the sources, so the two classes are interfaces.
    A [std::map] that is only looked up, extended and overwritten is the
    function from its keys to the optional value; the [satTypeValueMap] that
    [Process] walks through is the list of its entries in iteration (key)
    order, each satellite once. *)
Module SatArcProcess.

Local Open Scope float_scope.

(** [operator==] of [SatID]. *)
Definition SatID_eqb (a b : SatID) : bool :=
  (id a =? id b)%Z && SatelliteSystem_eqb (system a) (system b).

(** [std::set<SatID>], by membership. *)
Definition SatIDSet : Type := list SatID.

Definition mem (sat : SatID) (s : SatIDSet) : bool := existsb (SatID_eqb sat) s.

(** [m[sat] = value] on a map keyed by satellite. *)
Definition assign {V : Type} (m : SatID -> option V) (sat : SatID) (value : V)
  : SatID -> option V :=
  fun sat' => if SatID_eqb sat' sat then Some value else m sat'.

(** The value of an optional entry, or a default. *)
Definition or_default {V : Type} (o : option V) (d : V) : V :=
  match o with
  | Some x => x
  | None => d
  end.

(** [TypeID]: the types of the values, with [TypeID::satArc] among them. *)
Class TypeIDs : Type := {
  TypeID : Type;
  TypeID_eq_dec : forall a b : TypeID, {a = b} + {a <> b};
  satArc : TypeID
}.

(** [DayTime]: instants with [t1 - t2] in seconds.  [DayTime_default] is the
    value of the default-constructed [DayTime] that [operator[]] of
    [satArcChangeMap] stores when it is asked for a satellite the map does
    not hold; nothing is assumed about it. *)
Class DayTimes : Type := {
  DayTime : Type;
  DayTime_diff : DayTime -> DayTime -> double;
  BEGINNING_OF_TIME : DayTime;
  DayTime_default : SatID -> DayTime
}.

Section Process.

Context {types : TypeIDs} {times : DayTimes}.

(** [typeValueMap]: the values of one satellite, by type. *)
Definition typeValueMap : Type := TypeID -> option double.

Definition satTypeValueMap : Type := list (SatID * typeValueMap).

(** [tvm[type] = value] *)
Definition assignType (tvm : typeValueMap) (type : TypeID) (value : double)
  : typeValueMap :=
  fun type' => if TypeID_eq_dec type' type then Some value else tvm type'.

(** The three maps of a [SatArcMarker] object. *)
Record ArcMaps : Type := mkArcMaps {
  satArcChangeMap : SatID -> option DayTime;
  satArcMap : SatID -> option double;
  prevCSFlagMap : SatID -> option double
}.

(** The maps of a newly constructed object. *)
Definition noArcs : ArcMaps :=
  mkArcMaps (fun _ => None) (fun _ => None) (fun _ => None).

Definition set_satArcChange (m : ArcMaps) (sat : SatID) (t : DayTime) : ArcMaps :=
  mkArcMaps (assign (satArcChangeMap m) sat t) (satArcMap m) (prevCSFlagMap m).

Definition set_satArc (m : ArcMaps) (sat : SatID) (arc : double) : ArcMaps :=
  mkArcMaps (satArcChangeMap m) (assign (satArcMap m) sat arc) (prevCSFlagMap m).

Definition set_prevCSFlag (m : ArcMaps) (sat : SatID) (flag : double) : ArcMaps :=
  mkArcMaps (satArcChangeMap m) (satArcMap m) (assign (prevCSFlagMap m) sat flag).

(** Reading [map[sat]]: [operator[]] first stores the default value when the
    satellite is missing. *)
Definition at_satArcChange (m : ArcMaps) (sat : SatID) : DayTime * ArcMaps :=
  match satArcChangeMap m sat with
  | Some t => (t, m)
  | None => (DayTime_default sat, set_satArcChange m sat (DayTime_default sat))
  end.

Definition at_satArc (m : ArcMaps) (sat : SatID) : double * ArcMaps :=
  match satArcMap m sat with
  | Some arc => (arc, m)
  | None => (0.0, set_satArc m sat 0.0)
  end.

Definition at_prevCSFlag (m : ArcMaps) (sat : SatID) : double * ArcMaps :=
  match prevCSFlagMap m sat with
  | Some flag => (flag, m)
  | None => (0.0, set_prevCSFlag m sat 0.0)
  end.

Variable this : SatArcMarker.SatArcMarker TypeID.
Variable epoch : DayTime.

(** The block guarded by [if ( flag > 0.0 )]: the maps it leaves, and
    whether it put the satellite into [satRejectedSet]. *)
Definition on_cycle_slip (m : ArcMaps) (sat : SatID) : ArcMaps * bool :=
  let m :=
    match satArcMap m sat with
    | None => set_satArcChange (set_satArc m sat 0.0) sat BEGINNING_OF_TIME
    | Some _ => m
    end in
  let m :=
    match prevCSFlagMap m sat with
    | None => set_prevCSFlag m sat 0.0
    | Some _ => m
    end in
  let '(prev, m) := at_prevCSFlag m sat in
  let m :=
    if PrimFloat.ltb prev 1.0 then
      let '(changed, m) := at_satArcChange m sat in
      if Double.gt (fabs (DayTime_diff epoch changed))
                   (SatArcMarker.unstablePeriod this)
      then
        let '(arc, m) := at_satArc m sat in
        let m := set_satArc m sat (arc + 1.0) in
        let '(arc, m) := at_satArc m sat in
        if Double.gt arc 1.0 then set_satArcChange m sat epoch else m
      else m
    else m in
  if SatArcMarker.deleteUnstableSats this then
    let '(changed, m) := at_satArcChange m sat in
    (m, Double.le (fabs (DayTime_diff epoch changed))
                  (SatArcMarker.unstablePeriod this))
  else (m, false).

(** One turn of the loop over the satellites, for the entry [(sat, tvm)]:
    the maps and the entry's values it leaves, and whether the satellite was
    put into [satRejectedSet] (by the catch handler or as unstable). *)
Definition loop_body (m : ArcMaps) (sat : SatID) (tvm : typeValueMap)
  : ArcMaps * typeValueMap * bool :=
  match tvm (SatArcMarker.watchCSFlag this) with
  | None => (m, tvm, true)               (* catch(...): reject, continue *)
  | Some flag =>
      let '(m, rejected) :=
        if Double.gt flag 0.0 then on_cycle_slip m sat else (m, false) in
      let '(arc, m) := at_satArc m sat in
      let tvm := assignType tvm satArc arc in
      let m :=
        match tvm (SatArcMarker.watchCSFlag this) with
        | Some flag' => set_prevCSFlag m sat flag'
        | None => m                      (* not reached: the type is present *)
        end in
      (m, tvm, rejected)
  end.

(** The loop: the maps, the rejected set and the data it leaves. *)
Fixpoint loop (m : ArcMaps) (satRejectedSet : SatIDSet) (gData : satTypeValueMap)
  : ArcMaps * SatIDSet * satTypeValueMap :=
  match gData with
  | [] => (m, satRejectedSet, [])
  | (sat, tvm) :: rest =>
      let '(m, tvm, rejected) := loop_body m sat tvm in
      let satRejectedSet :=
        if rejected then sat :: satRejectedSet else satRejectedSet in
      let '(m, satRejectedSet, rest) := loop m satRejectedSet rest in
      (m, satRejectedSet, (sat, tvm) :: rest)
  end.

(** [satTypeValueMap::removeSatID(const SatIDSet&)] *)
Definition removeSatID (gData : satTypeValueMap) (s : SatIDSet) : satTypeValueMap :=
  filter (fun entry => negb (mem (fst entry) s)) gData.

(** [satTypeValueMap& Process(const DayTime& epoch, satTypeValueMap& gData,
    const short& epochflag)]: the maps of the object and [gData] after the
    call. *)
Definition Process (epochflag : Z) (m : ArcMaps) (gData : satTypeValueMap)
  : ArcMaps * satTypeValueMap :=
  let '(m, satRejectedSet, gData) := loop m [] gData in
  (m, removeSatID gData satRejectedSet).

(** [gnssRinex]: the header members [Process] reads, and the body. *)
Record gnssRinex : Type := mkGnssRinex {
  header_epoch : DayTime;
  header_epochFlag : Z;
  body : satTypeValueMap
}.

End Process.

(** [gnssRinex& Process(gnssRinex& gData)] *)
Definition Process_gnssRinex {types : TypeIDs} {times : DayTimes}
  (this : SatArcMarker.SatArcMarker TypeID) (m : ArcMaps) (gData : gnssRinex)
  : ArcMaps * gnssRinex :=
  let '(m, body) :=
    Process this (header_epoch gData) (header_epochFlag gData) m (body gData) in
  (m, mkGnssRinex (header_epoch gData) (header_epochFlag gData) body).

(** The three entries the maps hold for one satellite. *)
Definition SatEntry {times : DayTimes} : Type :=
  (option DayTime * option double * option double)%type.

Definition entry_of {times : DayTimes} (m : ArcMaps) (sat : SatID) : SatEntry :=
  (satArcChangeMap m sat, satArcMap m sat, prevCSFlagMap m sat).

End SatArcProcess.

(* ------------------------------------------------------------------ *)
(** ** One loop turn of [Process], entry by entry *)

(** What one turn of the loop of [Process] does to the three entries of its
    own satellite, written out as a function of these entries alone (lemma
    [loop_body_entry] relates it to [loop_body]). *)
Module ArcEntry.

Import SatArcProcess.

Local Open Scope float_scope.

Section Entry.

Context {types : TypeIDs} {times : DayTimes}.

Variable this : SatArcMarker.SatArcMarker TypeID.
Variable epoch : DayTime.

Definition entry_on_cycle_slip (sat : SatID) (e : SatEntry) : SatEntry * bool :=
  let '(change, arc, prev) := e in
  let '(change, arc) :=
    match arc with
    | None => (Some BEGINNING_OF_TIME, Some 0.0)
    | Some _ => (change, arc)
    end in
  let prev := Some (or_default prev 0.0) in
  let '(change, arc) :=
    if PrimFloat.ltb (or_default prev 0.0) 1.0 then
      let change := Some (or_default change (DayTime_default sat)) in
      if Double.gt (fabs (DayTime_diff epoch (or_default change (DayTime_default sat))))
                   (SatArcMarker.unstablePeriod this)
      then
        let arc := Some (or_default arc 0.0 + 1.0) in
        if Double.gt (or_default arc 0.0) 1.0 then (Some epoch, arc) else (change, arc)
      else (change, arc)
    else (change, arc) in
  if SatArcMarker.deleteUnstableSats this then
    let change := Some (or_default change (DayTime_default sat)) in
    ((change, arc, prev),
     Double.le (fabs (DayTime_diff epoch (or_default change (DayTime_default sat))))
               (SatArcMarker.unstablePeriod this))
  else ((change, arc, prev), false).

Definition entry_step (sat : SatID) (e : SatEntry) (flag : double)
  : SatEntry * double * bool :=
  let '(e, rejected) :=
    if Double.gt flag 0.0 then entry_on_cycle_slip sat e else (e, false) in
  let '(change, arc, prev) := e in
  let arc := or_default arc 0.0 in
  let flag' :=
    if TypeID_eq_dec (SatArcMarker.watchCSFlag this) satArc then arc else flag in
  ((change, Some arc, Some flag'), arc, rejected).

End Entry.

End ArcEntry.

(* ------------------------------------------------------------------ *)
(** ** Concrete arc-marking data *)

Module ArcRecords.

Import SatArcProcess.

Local Open Scope float_scope.

(** Four of the types of TypeID.hpp. *)
Inductive ObsType : Type :=
| CSL1
| LI
| C1
| SatArc.

Definition ObsType_eq_dec (a b : ObsType) : {a = b} + {a <> b}.
Proof. decide equality. Defined.

#[export] Instance obs_types : TypeIDs := {
  TypeID := ObsType;
  TypeID_eq_dec := ObsType_eq_dec;
  satArc := SatArc
}.

(** Instants in whole seconds after the beginning of time. *)
#[export] Instance second_times : DayTimes := {
  DayTime := Z;
  DayTime_diff := CommonTime.diff;
  BEGINNING_OF_TIME := 0%Z;
  DayTime_default := fun _ => 0%Z
}.

Definition second (s : Z) : DayTime := s.

Definition G01 : SatID := mkSatID 1 systemGPS.
Definition G02 : SatID := mkSatID 2 systemGPS.
Definition G03 : SatID := mkSatID 3 systemGPS.

(** Two markers watching CSL1 with an unstable period of 31 s: one deletes
    unstable satellites, the other keeps them. *)
Definition marker : SatArcMarker.SatArcMarker TypeID :=
  fst (SatArcMarker.new SatArcMarker.classIndex CSL1 true 31.0).

Definition keeper : SatArcMarker.SatArcMarker TypeID :=
  fst (SatArcMarker.new SatArcMarker.classIndex CSL1 false 31.0).

(** The values of a satellite with a cycle slip, of one without, and of one
    without the cycle-slip flag. *)
Definition slip : typeValueMap :=
  fun type =>
    match type with
    | CSL1 => Some 1.0
    | LI => Some 0.25
    | _ => None
    end.

Definition quiet : typeValueMap :=
  fun type =>
    match type with
    | CSL1 => Some 0.0
    | LI => Some 0.25
    | _ => None
    end.

Definition bare : typeValueMap :=
  fun type =>
    match type with
    | LI => Some 0.25
    | _ => None
    end.

(** Three epochs of data, at seconds 1000, 1030 and 1060, and the object's
    maps and the data after each. *)
Definition first_epoch : satTypeValueMap := [(G01, slip); (G02, quiet); (G03, bare)].
Definition quiet_epoch : satTypeValueMap := [(G01, quiet); (G02, quiet)].
Definition slip_epoch : satTypeValueMap := [(G01, slip); (G02, quiet)].

Definition after_first : ArcMaps := fst (Process marker (second 1000) 0 noArcs first_epoch).
Definition first_out : satTypeValueMap :=
  snd (Process marker (second 1000) 0 noArcs first_epoch).

Definition after_quiet : ArcMaps :=
  fst (Process marker (second 1030) 0 after_first quiet_epoch).

Definition after_slip : ArcMaps := fst (Process marker (second 1060) 0 after_quiet slip_epoch).
Definition slip_out : satTypeValueMap :=
  snd (Process marker (second 1060) 0 after_quiet slip_epoch).

(** The record [late_tx] after [adjustValidity]. *)
Definition late_tx_adjusted : BDSEphemeris.BDSEphemeris :=
  BDSEphemeris.set_endValid
    (BDSEphemeris.set_beginValid Records.late_tx (Records.T0 + 120)%Z)
    (Records.T0 + 3600)%Z.

End ArcRecords.

(* ================================================================== *)
(** * Properties *)

Import BDSEphemeris GeoSpec Records.

Ltac unfold_time :=
  unfold CommonTime.gtb, CommonTime.geb, CommonTime.leb, CommonTime.addSeconds in *.

(* ------------------------------------------------------------------ *)
(** ** Validity window *)

Section Validity.

Local Open Scope Z_scope.

(** What [adjustValidity] leaves in the two window members of a loaded
    record, by the outcome of its one test. *)
Lemma adjustValidity_loaded (eph : BDSEphemeris) :
  dataLoadedFlag eph = true ->
  exists eph',
    adjustValidity eph = inr eph'
    /\ beginValid eph' =
         (if transmitTime eph >? ctToe eph then transmitTime eph else ctToe eph)
    /\ endValid eph' = ctToe eph + 3600.
Proof.
  intros Hloaded.
  unfold adjustValidity, OrbitEph_adjustValidity.
  rewrite Hloaded. cbn [bind ret].
  eexists. split; [reflexivity|].
  unfold_time. cbn [beginValid endValid set_beginValid set_endValid
                    transmitTime ctToe].
  rewrite Z.gtb_ltb.
  destruct (ctToe eph <? transmitTime eph); cbn; split; reflexivity.
Qed.

(** Without data the call raises, and the window is not touched. *)
Lemma adjustValidity_not_loaded (eph : BDSEphemeris) :
  dataLoadedFlag eph = false -> adjustValidity eph = inl DataNotLoaded.
Proof.
  intros Hflag. unfold adjustValidity, OrbitEph_adjustValidity.
  now rewrite Hflag.
Qed.

(** C5. For a record with data loaded, [adjustValidity] sets
    beginValid = max(Toe, transmitTime) and endValid = Toe + 3600 s; a
    transmit time earlier than Toe leaves beginValid = Toe and a later one moves
    beginValid to the transmit time. *)
Theorem adjustValidity_window (eph : BDSEphemeris) :
  dataLoadedFlag eph = true ->
  exists eph',
    adjustValidity eph = inr eph'
    /\ beginValid eph' = Z.max (ctToe eph) (transmitTime eph)
    /\ endValid eph' = ctToe eph + 3600
    /\ (transmitTime eph < ctToe eph -> beginValid eph' = ctToe eph)
    /\ (ctToe eph < transmitTime eph -> beginValid eph' = transmitTime eph).
Proof.
  intros Hloaded.
  destruct (adjustValidity_loaded eph Hloaded) as (eph' & Hrun & Hbegin & Hend).
  exists eph'. rewrite Hbegin, Hend.
  destruct (Z.gtb_spec (transmitTime eph) (ctToe eph)); cbv iota;
    repeat split; try assumption; intros; lia.
Qed.

(** The two scenarios of section 8, run on the code. *)
Lemma adjustValidity_window_witness :
  dataLoadedFlag early_tx = true
  /\ exists eph',
       adjustValidity early_tx = inr eph'
       /\ beginValid eph' = Z.max (ctToe early_tx) (transmitTime early_tx)
       /\ endValid eph' = ctToe early_tx + 3600
       /\ (transmitTime early_tx < ctToe early_tx ->
           beginValid eph' = ctToe early_tx)
       /\ (ctToe early_tx < transmitTime early_tx ->
           beginValid eph' = transmitTime early_tx).
Proof.
  split; [reflexivity | apply (adjustValidity_window early_tx); reflexivity].
Defined.

Example adjustValidity_early_tx :
  option_map (fun e => (beginValid e, endValid e))
    (match adjustValidity early_tx with inr e => Some e | inl _ => None end)
  = Some (T0, T0 + 3600).
Proof. reflexivity. Qed.

Example adjustValidity_late_tx :
  option_map (fun e => (beginValid e, endValid e))
    (match adjustValidity late_tx with inr e => Some e | inl _ => None end)
  = Some (T0 + 120, T0 + 3600).
Proof. reflexivity. Qed.

(** C6, as stated, fails: a message transmitted two hours after Toe gets
    beginValid = Toe + 7200 s, later than endValid = Toe + 3600 s. *)
Lemma adjustValidity_stale_tx_inverts_window :
  exists eph',
    adjustValidity stale_tx = inr eph'
    /\ dataLoadedFlag stale_tx = true
    /\ ~ (beginValid eph' <= endValid eph' /\ ctToe stale_tx <= beginValid eph').
Proof.
  eexists. split; [reflexivity|]. split; [reflexivity|].
  vm_compute. intros [H _]. apply H. reflexivity.
Qed.

(** C6, amended. For a loaded record, after [adjustValidity] beginValid is
    never earlier than Toe, and beginValid <= endValid holds exactly when the
    transmit time is at most 3600 s after Toe. *)
Theorem adjustValidity_ordering (eph : BDSEphemeris) :
  dataLoadedFlag eph = true ->
  exists eph',
    adjustValidity eph = inr eph'
    /\ ctToe eph <= beginValid eph'
    /\ (beginValid eph' <= endValid eph'
        <-> transmitTime eph <= ctToe eph + 3600).
Proof.
  intros Hloaded.
  destruct (adjustValidity_loaded eph Hloaded) as (eph' & Hrun & Hbegin & Hend).
  exists eph'. rewrite Hbegin, Hend.
  destruct (Z.gtb_spec (transmitTime eph) (ctToe eph)); cbv iota;
    repeat split; try assumption; intros; lia.
Qed.

Lemma adjustValidity_ordering_witness :
  exists eph',
    adjustValidity late_tx = inr eph'
    /\ ctToe late_tx <= beginValid eph'
    /\ (beginValid eph' <= endValid eph'
        <-> transmitTime late_tx <= ctToe late_tx + 3600).
Proof. apply (adjustValidity_ordering late_tx). reflexivity. Defined.

(** [isValid] is the conjunction of its two comparisons. *)
Lemma isValid_unfold (eph : BDSEphemeris) (ct : CommonTime) :
  isValid eph ct = (beginValid eph <=? ct) && (ct <=? endValid eph).
Proof.
  unfold isValid. unfold_time.
  now destruct ((beginValid eph <=? ct) && (ct <=? endValid eph)).
Qed.

(** C7, as stated, fails: at ct = endValid the code answers true, where a
    half-open window would answer false. *)
Lemma isValid_true_at_endValid :
  ~ (isValid windowed (endValid windowed) = true
     <-> beginValid windowed <= endValid windowed < endValid windowed).
Proof.
  intros [Hto _].
  assert (Hrun : isValid windowed (endValid windowed) = true) by reflexivity.
  specialize (Hto Hrun). lia.
Qed.

(** C7, amended. [isValid ct] is true exactly when
    beginValid <= ct <= endValid: the window is closed at both ends, so
    [isValid] answers true at ct = endValid of a non-empty window. *)
Theorem isValid_closed_window (eph : BDSEphemeris) (ct : CommonTime) :
  (isValid eph ct = true <-> beginValid eph <= ct <= endValid eph)
  /\ (isValid eph (endValid eph) = true <-> beginValid eph <= endValid eph).
Proof.
  rewrite !isValid_unfold, !andb_true_iff, !Z.leb_le. lia.
Qed.

End Validity.

(* ------------------------------------------------------------------ *)
(** ** Health gate *)

Section Health.

Local Open Scope Z_scope.

(** C8. On a record whose data are loaded [isHealthy] returns true exactly
    when the health code is 0; on a record without data it raises the
    data-not-loaded exception instead of returning. *)
Theorem isHealthy_spec (eph : BDSEphemeris) :
  (dataLoadedFlag eph = true ->
     isHealthy eph = inr (health eph =? 0)
     /\ (isHealthy eph = inr true <-> health eph = 0))
  /\ (dataLoadedFlag eph = false -> isHealthy eph = inl DataNotLoaded).
Proof.
  unfold isHealthy, OrbitEph_isHealthy.
  split; intros Hflag; rewrite Hflag; cbn [bind ret GPSTK_THROW].
  - destruct (Z.eqb_spec (health eph) 0) as [Hz | Hnz].
    + split; [reflexivity | tauto].
    + split; [reflexivity|]. split; [discriminate | contradiction].
  - reflexivity.
Qed.

End Health.

(* ------------------------------------------------------------------ *)
(** ** Store lookup *)

Section StoreLookup.

Variable GalEphemeris : Type.
Variable findOrbitEph : SatID -> CommonTime -> option GalEphemeris.

Import GalEphemerisStore.

Lemma SatelliteSystem_eqb_eq (a b : SatelliteSystem) :
  SatelliteSystem_eqb a b = true <-> a = b.
Proof. destruct a, b; cbn; split; intros H; try reflexivity; discriminate. Qed.

(** The constellation gate of [findEphemeris] lets exactly the BeiDou
    satellites through. *)
Lemma findEphemeris_gate (sat : SatID) (t : CommonTime) :
  findEphemeris GalEphemeris findOrbitEph sat t = inl WrongSystem
  <-> system sat <> systemBeiDou.
Proof.
  unfold findEphemeris, WrongSystem.
  destruct (SatelliteSystem_eqb (system sat) systemBeiDou) eqn:Hsys; cbn.
  - apply SatelliteSystem_eqb_eq in Hsys.
    split; [| intros Hne; contradiction].
    destruct (findOrbitEph sat t); discriminate.
  - split; [| reflexivity].
    intros _ Heq. apply SatelliteSystem_eqb_eq in Heq. congruence.
Qed.

(** C2 fails on the code: a satellite of the store's own constellation
    (Galileo) is always refused as being of the wrong satellite system,
    whatever the store holds. *)
Theorem findEphemeris_refuses_own_system (prn : Z) (t : CommonTime) :
  findEphemeris GalEphemeris findOrbitEph (mkSatID prn storeSystem) t
  = inl WrongSystem.
Proof. apply findEphemeris_gate. cbn. discriminate. Qed.

(** A BeiDou satellite passes the gate, and gets whatever the table lookup
    finds for it. *)
Lemma findEphemeris_BeiDou (prn : Z) (t : CommonTime) :
  findEphemeris GalEphemeris findOrbitEph (mkSatID prn systemBeiDou) t =
  match findOrbitEph (mkSatID prn systemBeiDou) t with
  | None => inl (InvalidRequest "Ephemeris not found")
  | Some geph => inr geph
  end.
Proof. reflexivity. Qed.

End StoreLookup.

(** A store whose table answers every lookup with record 7: the Galileo
    satellite is refused, the BeiDou satellite gets the record. *)
Example findEphemeris_runs :
  GalEphemerisStore.findEphemeris nat (fun _ _ => Some 7%nat)
    (mkSatID 1 systemGalileo) T0 = inl GalEphemerisStore.WrongSystem
  /\ GalEphemerisStore.findEphemeris nat (fun _ _ => Some 7%nat)
       (mkSatID 1 systemBeiDou) T0 = inr 7%nat.
Proof. split; reflexivity. Qed.

(* ------------------------------------------------------------------ *)
(** ** Comparisons of doubles with zero *)

Section DoubleOrder.

Local Open Scope float_scope.

Lemma gt_zero_spec (x : double) :
  Double.gt x 0.0 = SFltb (S754_zero false) (Prim2SF x).
Proof. unfold Double.gt. now rewrite FloatAxioms.ltb_spec. Qed.

Lemma le_zero_spec (x : double) :
  Double.le x 0.0 = SFleb (Prim2SF x) (S754_zero false).
Proof. unfold Double.le. now rewrite FloatAxioms.leb_spec. Qed.

Lemma ge_zero_spec (x : double) :
  Double.ge x 0.0 = SFleb (S754_zero false) (Prim2SF x).
Proof. unfold Double.ge. now rewrite FloatAxioms.leb_spec. Qed.

(** A double above zero is at least zero. *)
Lemma gt_zero_ge_zero (x : double) :
  Double.gt x 0.0 = true -> Double.ge x 0.0 = true.
Proof.
  rewrite gt_zero_spec, ge_zero_spec. unfold SFltb, SFleb.
  destruct (SFcompare (S754_zero false) (Prim2SF x)) as [[]|];
    intros H; try reflexivity; discriminate.
Qed.

(** A double at most zero is not above zero. *)
Lemma le_zero_not_gt (x : double) :
  Double.le x 0.0 = true -> Double.gt x 0.0 = false.
Proof.
  rewrite gt_zero_spec, le_zero_spec. unfold SFltb, SFleb.
  destruct (Prim2SF x) as [s | s | | s m e]; cbn; try destruct s; cbn;
    intros H; try reflexivity; discriminate.
Qed.

(** Exchanging the operands of a comparison of doubles. *)
Lemma SFcompare_swap (x y : spec_float) :
  SFcompare y x = option_map CompOpp (SFcompare x y).
Proof.
  destruct x as [s1 | s1 | | s1 m1 e1], y as [s2 | s2 | | s2 m2 e2]; cbn;
    try destruct s1; try destruct s2; try reflexivity;
    rewrite (Z.compare_antisym e1 e2); destruct (e1 ?= e2)%Z; cbn;
    try reflexivity;
    now rewrite ?CompOpp_involutive, Pos.compare_cont_antisym.
Qed.

(** [x > y] excludes [x <= y]. *)
Lemma gt_not_le (x y : double) : Double.gt x y = true -> Double.le x y = false.
Proof.
  unfold Double.gt, Double.le.
  rewrite FloatAxioms.ltb_spec, FloatAxioms.leb_spec. unfold SFltb, SFleb.
  rewrite (SFcompare_swap (Prim2SF y) (Prim2SF x)).
  destruct (SFcompare (Prim2SF y) (Prim2SF x)) as [[] |]; cbn;
    intros H; try reflexivity; discriminate.
Qed.

Lemma le_not_gt (x y : double) : Double.le x y = true -> Double.gt x y = false.
Proof.
  intros Hle. destruct (Double.gt x y) eqn:Hgt; [| reflexivity].
  apply gt_not_le in Hgt. congruence.
Qed.

(** A comparison of doubles has no outcome only when an operand is NaN. *)
Lemma SFcompare_None (x y : spec_float) :
  SFcompare x y = None -> x = S754_nan \/ y = S754_nan.
Proof.
  destruct x as [s1 | s1 | | s1 m1 e1], y as [s2 | s2 | | s2 m2 e2]; cbn;
    intros H; try discriminate; auto.
Qed.

(** [isnan] of a double whose value is NaN. *)
Lemma is_nan_of_nan (x : double) :
  Prim2SF x = S754_nan -> PrimFloat.is_nan x = true.
Proof.
  intros Hnan. unfold PrimFloat.is_nan.
  now rewrite FloatAxioms.eqb_spec, Hnan.
Qed.

(** [fabs] yields NaN for NaN only. *)
Lemma fabs_nan (x : double) :
  Prim2SF (fabs x) = S754_nan -> Prim2SF x = S754_nan.
Proof.
  unfold fabs. rewrite FloatAxioms.abs_spec.
  destruct (Prim2SF x); cbn; intros H; try discriminate; reflexivity.
Qed.

(** When [x > y] is false, either [x <= y] or an operand is NaN. *)
Lemma not_gt_cases (x y : double) :
  Double.gt x y = false ->
  Double.le x y = true \/ Prim2SF x = S754_nan \/ Prim2SF y = S754_nan.
Proof.
  unfold Double.gt, Double.le.
  rewrite FloatAxioms.ltb_spec, FloatAxioms.leb_spec. unfold SFltb, SFleb.
  rewrite (SFcompare_swap (Prim2SF y) (Prim2SF x)).
  destruct (SFcompare (Prim2SF y) (Prim2SF x)) as [[] |] eqn:Hcmp; cbn;
    intros H; try discriminate; auto.
  apply SFcompare_None in Hcmp. tauto.
Qed.

End DoubleOrder.

(* ------------------------------------------------------------------ *)
(** ** Unstable period of the arc marker *)

Section UnstablePeriod.

Variable TypeID : Type.

Local Open Scope float_scope.

Lemma clamp_ge_zero (x : double) :
  Double.ge (if Double.gt x 0.0 then x else 0.0) 0.0 = true.
Proof.
  destruct (Double.gt x 0.0) eqn:Hgt.
  - now apply gt_zero_ge_zero.
  - reflexivity.
Qed.

Lemma unstablePeriod_new (classIndex : Z) (watchFlag : TypeID)
  (delUnstableSats : bool) (unstableTime : double) :
  SatArcMarker.unstablePeriod
    (fst (SatArcMarker.new classIndex watchFlag delUnstableSats unstableTime))
  = if Double.gt unstableTime 0.0 then unstableTime else 0.0.
Proof. reflexivity. Qed.

Lemma unstablePeriod_set (m : SatArcMarker.SatArcMarker TypeID)
  (unstableTime : double) :
  SatArcMarker.unstablePeriod (SatArcMarker.setUnstablePeriod m unstableTime)
  = if Double.gt unstableTime 0.0 then unstableTime else 0.0.
Proof. reflexivity. Qed.

(** C10. [unstablePeriod >= 0] holds after construction and after every
    [setUnstablePeriod]; an argument [<= 0] stores 0.0 and an argument [> 0]
    is stored unchanged, by the setter and by the constructor alike.  The
    comparisons are those of IEEE doubles, so the
    invariant also covers a NaN argument, which stores 0.0. *)
Theorem unstablePeriod_nonnegative (classIndex : Z) (watchFlag : TypeID)
  (delUnstableSats : bool) (m : SatArcMarker.SatArcMarker TypeID)
  (unstableTime : double) :
  Double.ge
    (SatArcMarker.unstablePeriod
       (fst (SatArcMarker.new classIndex watchFlag delUnstableSats unstableTime)))
    0.0 = true
  /\ Double.ge
       (SatArcMarker.unstablePeriod (SatArcMarker.setUnstablePeriod m unstableTime))
       0.0 = true
  /\ (Double.le unstableTime 0.0 = true ->
      SatArcMarker.unstablePeriod (SatArcMarker.setUnstablePeriod m unstableTime)
      = 0.0)
  /\ (Double.gt unstableTime 0.0 = true ->
      SatArcMarker.unstablePeriod (SatArcMarker.setUnstablePeriod m unstableTime)
      = unstableTime)
  /\ (Double.le unstableTime 0.0 = true ->
      SatArcMarker.unstablePeriod
        (fst (SatArcMarker.new classIndex watchFlag delUnstableSats unstableTime))
      = 0.0)
  /\ (Double.gt unstableTime 0.0 = true ->
      SatArcMarker.unstablePeriod
        (fst (SatArcMarker.new classIndex watchFlag delUnstableSats unstableTime))
      = unstableTime).
Proof.
  rewrite unstablePeriod_new, unstablePeriod_set.
  repeat split.
  - apply clamp_ge_zero.
  - apply clamp_ge_zero.
  - intros Hle. now rewrite (le_zero_not_gt _ Hle).
  - intros Hgt. now rewrite Hgt.
  - intros Hle. now rewrite (le_zero_not_gt _ Hle).
  - intros Hgt. now rewrite Hgt.
Qed.

End UnstablePeriod.

Example setUnstablePeriod_runs :
  let m := fst (SatArcMarker.new SatArcMarker.classIndex tt false (-3.0)%float) in
  SatArcMarker.unstablePeriod m = 0.0%float
  /\ SatArcMarker.unstablePeriod (SatArcMarker.setUnstablePeriod m 31.0%float)
     = 31.0%float
  /\ SatArcMarker.unstablePeriod (SatArcMarker.setUnstablePeriod m nan) = 0.0%float
  /\ SatArcMarker.unstablePeriod (SatArcMarker.setUnstablePeriod m (-0.0)%float)
     = 0.0%float.
Proof. vm_compute. repeat split. Qed.

(* ------------------------------------------------------------------ *)
(** ** The Kepler loop *)

Section KeplerLoop.

Context {libm : Libm}.

Local Open Scope Z_scope.

(** One more unit of fuel than the iteration cap leaves room for changes
    nothing: the loop is left by its own test, never for lack of fuel. *)
Lemma kepler_do_while_fuel (fuel : nat) :
  forall (meana lecc ea : double) (loop_cnt : Z),
    20 <= Z.of_nat fuel + loop_cnt ->
    kepler_do_while (S fuel) meana lecc ea loop_cnt
    = kepler_do_while fuel meana lecc ea loop_cnt.
Proof.
  induction fuel as [| fuel IH]; intros meana lecc ea loop_cnt Hfuel.
  - cbn [kepler_do_while].
    replace (loop_cnt + 1 <=? 20) with false by (symmetry; apply Z.leb_gt; lia).
    now rewrite andb_false_r.
  - change (kepler_do_while (S (S fuel)) meana lecc ea loop_cnt) with
      (let F := (meana - (ea - lecc * sin ea))%float in
       let G := (1.0 - lecc * cos ea)%float in
       let delea := (F / G)%float in
       let ea' := (ea + delea)%float in
       if Double.gt (fabs delea) 1.0e-11%float && (loop_cnt + 1 <=? 20)
       then kepler_do_while (S fuel) meana lecc ea' (loop_cnt + 1)
       else (ea', delea, loop_cnt + 1)).
    cbv zeta. rewrite IH by lia. reflexivity.
Qed.

(** Any fuel from 20 on gives the result of [kepler]'s 20. *)
Lemma kepler_do_while_enough_fuel (k : nat) (meana lecc ea : double) :
  kepler_do_while (k + 20) meana lecc ea 1
  = kepler_do_while 20 meana lecc ea 1.
Proof.
  induction k as [| k IH]; [reflexivity |].
  cbn [Nat.add]. rewrite kepler_do_while_fuel by lia. exact IH.
Qed.

(** The state with which the loop is left falsifies the loop test, and its
    counter is at most 21. *)
Lemma kepler_do_while_exit (fuel : nat) :
  forall (meana lecc ea : double) (loop_cnt : Z) (ea' delea : double) (cnt : Z),
    20 <= Z.of_nat fuel + loop_cnt ->
    kepler_do_while fuel meana lecc ea loop_cnt = (ea', delea, cnt) ->
    Double.gt (fabs delea) 1.0e-11%float && (cnt <=? 20) = false
    /\ loop_cnt < cnt
    /\ (cnt <= 21 \/ cnt = loop_cnt + 1).
Proof.
  induction fuel as [| fuel IH]; intros meana lecc ea loop_cnt ea' delea cnt Hfuel.
  - cbn [kepler_do_while].
    replace (loop_cnt + 1 <=? 20) with false by (symmetry; apply Z.leb_gt; lia).
    rewrite andb_false_r. intros Heq. injection Heq as _ _ <-.
    repeat split; lia.
  - cbn [kepler_do_while].
    destruct (Double.gt _ _ && (loop_cnt + 1 <=? 20)) eqn:Htest.
    + intros Hrec. apply IH in Hrec; [| lia].
      destruct Hrec as (Hexit & Hlt & Hcap).
      apply andb_true_iff in Htest. destruct Htest as [_ Hle].
      apply Z.leb_le in Hle.
      repeat split; try assumption; lia.
    + intros Heq. injection Heq as <- <- <-.
      repeat split; try assumption; lia.
Qed.

End KeplerLoop.

(* ------------------------------------------------------------------ *)
(** ** Propagation *)

Section PropagationFacts.

Context {libm : Libm} {consts : Constants} {base : OrbitEphBase}.

Local Open Scope Z_scope.

(** [svXvt] follows the branch its two tests select. *)
Lemma svXvt_by_branch (eph : BDSEphemeris) (t : CommonTime) :
  svXvt eph t =
  match svXvt_branch eph with
  | ThrowDataNotLoaded => inl DataNotLoaded
  | StandardOrbitEph => OrbitEph_svXvt eph t
  | GeoVariant => inr (svXvt_GEO eph t)
  end.
Proof.
  unfold svXvt, svXvt_branch.
  destruct (dataLoadedFlag eph); cbn [negb]; [| reflexivity].
  destruct (id (satID eph) >? 5); reflexivity.
Qed.

(** On a loaded record the branch is decided by the PRN alone. *)
Lemma svXvt_branch_loaded (eph : BDSEphemeris) :
  dataLoadedFlag eph = true ->
  svXvt_branch eph = if id (satID eph) >? 5 then StandardOrbitEph else GeoVariant.
Proof. intros Hloaded. unfold svXvt_branch. now rewrite Hloaded. Qed.

(** On a loaded record with PRN at most 5 the call returns the result of
    the GEO computation; it has no failing exit. *)
Lemma svXvt_GEO_returns (eph : BDSEphemeris) (t : CommonTime) :
  dataLoadedFlag eph = true ->
  id (satID eph) <= 5 ->
  svXvt eph t = inr (svXvt_GEO eph t).
Proof.
  intros Hloaded Hprn. rewrite svXvt_by_branch, svXvt_branch_loaded by assumption.
  destruct (Z.gtb_spec (id (satID eph)) 5); [lia | reflexivity].
Qed.

(** C9, amended. For a loaded record with satellite id above 5, [svXvt]
    returns exactly what [OrbitEph::svXvt] returns; the GEO branch is taken
    exactly for the ids up to 5, with no lower bound: for the ids 1 through
    5 and for the ids 0 and below alike, the result is the GEO
    computation. *)
Theorem svXvt_variant_selection (eph : BDSEphemeris) (t : CommonTime) :
  dataLoadedFlag eph = true ->
  (5 < id (satID eph) ->
     svXvt eph t = OrbitEph_svXvt eph t
     /\ svXvt_branch eph = StandardOrbitEph)
  /\ (svXvt_branch eph = GeoVariant <-> id (satID eph) <= 5)
  /\ (id (satID eph) <= 5 -> svXvt eph t = inr (svXvt_GEO eph t)).
Proof.
  intros Hloaded.
  rewrite svXvt_by_branch, (svXvt_branch_loaded eph Hloaded).
  destruct (Z.gtb_spec (id (satID eph)) 5) as [Hgt | Hle].
  - repeat split; try reflexivity; try discriminate; intros; lia.
  - repeat split; try reflexivity; try discriminate; intros; lia.
Qed.

(** C4 fails on the code: for every loaded record with PRN up to 5 and
    every time, the velocity of the returned state is the zero vector. *)
Theorem svXvt_GEO_velocity_is_zero (eph : BDSEphemeris) (t : CommonTime) :
  dataLoadedFlag eph = true ->
  id (satID eph) <= 5 ->
  exists xvt, svXvt eph t = inr xvt /\ v xvt = (0.0, 0.0, 0.0)%float.
Proof.
  intros Hloaded Hprn. exists (svXvt_GEO eph t).
  split; [now apply svXvt_GEO_returns | reflexivity].
Qed.

(** X3. The position of the GEO branch: the matrix named [matZ] is the rotation
    about the first axis (by the earth-rotation angle), the matrix named
    [matX] is the rotation about the third axis (by the constant tilt). *)
Lemma svXvt_GEO_position (eph : BDSEphemeris) (t : CommonTime) :
  x (svXvt_GEO eph t) =
  triple_of
    (Matrix.mul
       (Matrix.mul (rotation_first_axis (ell_angVelocity * elapte eph t)%float)
                   (rotation_third_axis angleX))
       (column_of (inertialPos eph t))).
Proof. unfold svXvt_GEO, matZ, matX. reflexivity. Qed.

(** The same position, in the names of the source. *)
Lemma svXvt_GEO_x (eph : BDSEphemeris) (t : CommonTime) :
  x (svXvt_GEO eph t) =
  triple_of
    (Matrix.mul
       (Matrix.mul (matZ (ell_angVelocity * elapte eph t)%float) matX)
       (column_of (inertialPos eph t))).
Proof. reflexivity. Qed.

(** The intermediate vector is computed from the eccentric anomaly with
    which the loop is left. *)
Lemma inertialPos_kepler (eph : BDSEphemeris) (t : CommonTime)
  (ea delea : double) (cnt : Z) :
  kepler eph t = (ea, delea, cnt) ->
  inertialPos eph t = inertialPos_of eph t ea.
Proof. intros Hk. unfold inertialPos. now rewrite Hk. Qed.

(** [kepler] starts the loop with counter 1 and fuel 20. *)
Lemma kepler_exit (eph : BDSEphemeris) (t : CommonTime)
  (ea delea : double) (cnt : Z) :
  kepler eph t = (ea, delea, cnt) ->
  Double.gt (fabs delea) 1.0e-11%float && (cnt <=? 20) = false
  /\ 1 < cnt <= 21.
Proof.
  unfold kepler. intros Hk.
  apply kepler_do_while_exit in Hk; [| cbn; lia].
  destruct Hk as (Htest & Hlt & Hcap). split; [assumption | lia].
Qed.

(** X1. The Kepler loop of [svXvt] always ends: it is left after at most 20
    iterations (counter between 2 and 21), in a state that falsifies its
    test: the magnitude of the last increment is at most 1.0e-11, or the
    last increment is NaN (which no comparison finds above the threshold),
    or the counter is above 20. *)
Theorem kepler_terminates (eph : BDSEphemeris) (t : CommonTime) :
  exists ea delea cnt,
    kepler eph t = (ea, delea, cnt)
    /\ 2 <= cnt <= 21
    /\ Double.gt (fabs delea) 1.0e-11%float && (cnt <=? 20) = false
    /\ (Double.le (fabs delea) 1.0e-11%float = true
        \/ PrimFloat.is_nan delea = true
        \/ 20 < cnt).
Proof.
  destruct (kepler eph t) as [[ea delea] cnt] eqn:Hk.
  destruct (kepler_exit eph t ea delea cnt Hk) as [Htest Hbound].
  exists ea, delea, cnt.
  split; [reflexivity |]. split; [lia |]. split; [assumption |].
  apply andb_false_iff in Htest. destruct Htest as [Hdelea | Hcnt].
  - destruct (not_gt_cases _ _ Hdelea) as [Hle | [Hnan | Hnan]].
    + now left.
    + right. left. apply is_nan_of_nan. now apply fabs_nan.
    + vm_compute in Hnan. discriminate.
  - right. right. apply Z.leb_gt in Hcnt. assumption.
Qed.

(** X2. A record without data makes [svXvt] raise InvalidRequest (Data not
    loaded), whatever its satellite id. *)
Theorem svXvt_without_data (eph : BDSEphemeris) (t : CommonTime) :
  dataLoadedFlag eph = false -> svXvt eph t = inl DataNotLoaded.
Proof. intros Hflag. unfold svXvt. now rewrite Hflag. Qed.

(** [kepler_cap_exceeded] reads the state with which the loop is left. *)
Lemma kepler_cap_exceeded_unfold (eph : BDSEphemeris) (t : CommonTime) :
  kepler_cap_exceeded eph t =
  (let '(_, delea, loop_cnt) := kepler eph t in
   Double.gt (fabs delea) 1.0e-11%float && (20 <? loop_cnt)).
Proof. reflexivity. Qed.

(** Leaving by the cap means leaving with counter 21. *)
Lemma kepler_cap_exceeded_inv (eph : BDSEphemeris) (t : CommonTime)
  (ea delea : double) (cnt : Z) :
  kepler eph t = (ea, delea, cnt) ->
  kepler_cap_exceeded eph t = true ->
  Double.gt (fabs delea) 1.0e-11%float = true /\ cnt = 21.
Proof.
  intros Hk Hcap. rewrite kepler_cap_exceeded_unfold, Hk in Hcap.
  apply andb_true_iff in Hcap. destruct Hcap as [Hdelea Hcnt].
  apply Z.ltb_lt in Hcnt.
  destruct (kepler_exit eph t ea delea cnt Hk) as [_ Hbound].
  split; [assumption | lia].
Qed.

(** C3, amended. When the Kepler loop is left by the iteration cap with the
    last increment still above the threshold, [svXvt] raises nothing: it
    returns the state whose position is computed from that last, unconverged
    eccentric anomaly. *)
Theorem svXvt_GEO_ignores_nonconvergence (eph : BDSEphemeris) (t : CommonTime) :
  dataLoadedFlag eph = true ->
  id (satID eph) <= 5 ->
  kepler_cap_exceeded eph t = true ->
  exists ea delea,
    kepler eph t = (ea, delea, 21)
    /\ Double.gt (fabs delea) 1.0e-11%float = true
    /\ svXvt eph t = inr (svXvt_GEO eph t)
    /\ x (svXvt_GEO eph t) =
       triple_of
         (Matrix.mul
            (Matrix.mul (matZ (ell_angVelocity * elapte eph t)%float) matX)
            (column_of (inertialPos_of eph t ea))).
Proof.
  intros Hloaded Hprn Hcap.
  destruct (kepler eph t) as [[ea delea] cnt] eqn:Hk.
  destruct (kepler_cap_exceeded_inv eph t ea delea cnt Hk Hcap) as [Hdelea ->].
  exists ea, delea.
  split; [reflexivity |]. split; [assumption |]. split.
  - apply svXvt_GEO_returns; assumption.
  - rewrite svXvt_GEO_x, (inertialPos_kepler eph t ea delea 21 Hk). reflexivity.
Qed.

End PropagationFacts.

(* ------------------------------------------------------------------ *)
(** ** The code run on concrete records

    Below, [Libm], [Constants] and [OrbitEphBase] are the reference
    implementations [ref_libm], [gpstk_constants] and [ref_base]. *)

Section Runs.

Local Open Scope float_scope.

Lemma svXvt_variant_selection_witness :
  dataLoadedFlag meo_c11 = true
  /\ ((5 < id (satID meo_c11))%Z ->
        svXvt meo_c11 (T0 + 600)%Z = OrbitEph_svXvt meo_c11 (T0 + 600)%Z
        /\ svXvt_branch meo_c11 = StandardOrbitEph)
  /\ (svXvt_branch meo_c11 = GeoVariant <-> (id (satID meo_c11) <= 5)%Z)
  /\ ((id (satID meo_c11) <= 5)%Z ->
      svXvt meo_c11 (T0 + 600)%Z = inr (svXvt_GEO meo_c11 (T0 + 600)%Z)).
Proof.
  split; [reflexivity |].
  apply (svXvt_variant_selection meo_c11 (T0 + 600)%Z). reflexivity.
Defined.

(** C9, as stated, fails: a loaded record with satellite id 0 is outside 1
    through 5 and still goes through the GEO computation, the code testing
    [satID.id > 5] only. *)
Lemma svXvt_GEO_path_below_PRN_1 :
  dataLoadedFlag geo_id0 = true
  /\ svXvt_branch geo_id0 = GeoVariant
  /\ svXvt geo_id0 T0 = inr (svXvt_GEO geo_id0 T0)
  /\ ~ (1 <= id (satID geo_id0) <= 5)%Z.
Proof.
  split; [reflexivity |]. split; [reflexivity |]. split.
  - apply svXvt_GEO_returns; [reflexivity | cbn; lia].
  - cbn. lia.
Qed.

(** PRN 11 ten minutes after Toe: the state is the one of the standard
    routine, with a velocity. *)
Example svXvt_meo_c11 :
  option_map v (value (svXvt meo_c11 (T0 + 600)%Z))
  = Some (-11.761734252606857, 38.815983775374434, 0).
Proof. vm_compute. reflexivity. Qed.

Lemma svXvt_GEO_velocity_is_zero_witness :
  dataLoadedFlag geo_c01 = true
  /\ (id (satID geo_c01) <= 5)%Z
  /\ exists xvt, svXvt geo_c01 T0 = inr xvt /\ v xvt = (0.0, 0.0, 0.0).
Proof.
  split; [reflexivity |]. split; [intro H; discriminate H |].
  apply (svXvt_GEO_velocity_is_zero geo_c01 T0);
    [reflexivity | intro H; discriminate H].
Defined.

(** C1 fails on the code.  PRN 1 on a circular equatorial orbit, at its
    Toe: the intermediate vector lies on the first axis, at 42164 km.  The
    composition the specification words (either sense of rotation) leaves it
    there, since a rotation about the first axis fixes the first axis and the
    earth-rotation angle is zero.  The code turns it by 5 degrees about the
    third axis, 3675 km away. *)
Theorem svXvt_GEO_rotation_axes_swapped :
  inertialPos geo_c01 T0 = (42164000, 0, 0)
  /\ spec_position geo_c01 T0 = (42164000, 0, 0)
  /\ spec_position_tilt (- angleX) geo_c01 T0 = (42164000, 0, 0)
  /\ option_map x (value (svXvt geo_c01 T0))
     = Some (42003553.250340357, 3674834.7372122672, 0)
  /\ option_map x (value (svXvt geo_c01 T0)) <> Some (spec_position geo_c01 T0).
Proof.
  split; [vm_compute; reflexivity |].
  split; [vm_compute; reflexivity |].
  split; [vm_compute; reflexivity |].
  split; [vm_compute; reflexivity |].
  intros Heq.
  apply (f_equal (option_map (fun p : Triple => Prim2SF (snd (fst p))))) in Heq.
  vm_compute in Heq. discriminate Heq.
Qed.

(** The same record one hour after Toe, where the earth-rotation angle is
    not zero: the two positions differ in every coordinate. *)
Example svXvt_GEO_rotation_one_hour :
  option_map x (value (svXvt geo_c01 (T0 + 3600)%Z))
  = Some (39610829.911685221, 13954360.856242096, -3749781.7004888975)
  /\ spec_position geo_c01 (T0 + 3600)%Z
     = (42153194.469108447, -40143.385349221528, 953666.90103907301).
Proof. split; vm_compute; reflexivity. Qed.

(** C3, as stated, fails.  PRN 3 with mean anomaly 0.2 and eccentricity
    1.25, at its Toe: the Newton iteration falls into a cycle between
    eccentric anomalies near 0 and near -0.8, the loop is left by the cap with
    an increment of 0.8, and [svXvt] returns a state. *)
Lemma svXvt_returns_at_iteration_cap :
  kepler geo_c03 T0 = (8.971867890505969e-05, 0.80008973477899159, 21%Z)
  /\ kepler_cap_exceeded geo_c03 T0 = true
  /\ returns (svXvt geo_c03 T0) = true.
Proof. repeat split; vm_compute; reflexivity. Qed.

Lemma svXvt_GEO_ignores_nonconvergence_witness :
  dataLoadedFlag geo_c03 = true
  /\ (id (satID geo_c03) <= 5)%Z
  /\ kepler_cap_exceeded geo_c03 T0 = true
  /\ exists ea delea,
       kepler geo_c03 T0 = (ea, delea, 21%Z)
       /\ Double.gt (fabs delea) 1.0e-11 = true
       /\ svXvt geo_c03 T0 = inr (svXvt_GEO geo_c03 T0)
       /\ x (svXvt_GEO geo_c03 T0) =
          triple_of
            (Matrix.mul
               (Matrix.mul (matZ (ell_angVelocity * elapte geo_c03 T0)) matX)
               (column_of (inertialPos_of geo_c03 T0 ea))).
Proof.
  split; [reflexivity |]. split; [intro H; discriminate H |].
  split; [vm_compute; reflexivity |].
  apply (svXvt_GEO_ignores_nonconvergence geo_c03 T0);
    [reflexivity | intro H; discriminate H | vm_compute; reflexivity].
Defined.

Lemma svXvt_without_data_witness :
  dataLoadedFlag unloaded = false /\ svXvt unloaded T0 = inl DataNotLoaded.
Proof.
  split; [reflexivity |]. apply svXvt_without_data. reflexivity.
Defined.

(** An elliptic orbit can exhaust the cap as well: eccentricity 0.9995 and
    mean anomaly 0.00251 rad. *)
Example kepler_cap_exceeded_elliptic :
  kepler_cap_exceeded (with_anomaly (blank 3 T0 T0) 0.00251 0.9995) T0 = true.
Proof. vm_compute. reflexivity. Qed.

(** A parabolic record (eccentricity 1, mean anomaly 0) at its Toe: the
    first increment is 0/0, and the loop is left at once, at counter 2, with
    a NaN increment. *)
Example kepler_left_on_NaN :
  option_map (fun k => (PrimFloat.is_nan (snd (fst k)), snd k))
    (Some (kepler (with_anomaly (blank 3 T0 T0) 0 1) T0))
  = Some (true, 2%Z).
Proof. vm_compute. reflexivity. Qed.

(** The health gate on a healthy, an unhealthy and an unloaded record. *)
Example isHealthy_runs :
  isHealthy geo_c01 = inr true
  /\ isHealthy unhealthy = inr false
  /\ isHealthy unloaded = inl DataNotLoaded.
Proof. repeat split. Qed.

End Runs.

(* ------------------------------------------------------------------ *)
(** ** Arc marking *)

Section ArcMarking.

Import SatArcProcess ArcEntry.

Lemma SatID_eqb_eq (a b : SatID) : SatID_eqb a b = true <-> a = b.
Proof.
  unfold SatID_eqb. rewrite andb_true_iff, Z.eqb_eq, SatelliteSystem_eqb_eq.
  destruct a, b; cbn.
  split; [intros [-> ->]; reflexivity | intros H; now inversion H].
Qed.

Lemma SatID_eqb_refl (a : SatID) : SatID_eqb a a = true.
Proof. now apply SatID_eqb_eq. Qed.

Lemma SatID_eqb_neq (a b : SatID) : SatID_eqb a b = false <-> a <> b.
Proof.
  rewrite <- SatID_eqb_eq. destruct (SatID_eqb a b); split; congruence.
Qed.

Lemma mem_In (sat : SatID) (s : SatIDSet) : mem sat s = true <-> In sat s.
Proof.
  unfold mem. rewrite existsb_exists. split.
  - intros (y & Hy & Heq). apply SatID_eqb_eq in Heq. now subst.
  - intros Hin. exists sat. split; [assumption | apply SatID_eqb_refl].
Qed.

Lemma mem_cons (sat sat0 : SatID) (s : SatIDSet) :
  mem sat (sat0 :: s) = SatID_eqb sat sat0 || mem sat s.
Proof. reflexivity. Qed.

Lemma Forall2_impl_In {A B : Type} (R R' : A -> B -> Prop) (l : list A)
  (l' : list B) :
  Forall2 R l l' ->
  (forall a b, In a l -> R a b -> R' a b) ->
  Forall2 R' l l'.
Proof.
  induction 1 as [| a b l l' Hab Hrest IH]; intros Himp; constructor.
  - apply Himp; [now left | assumption].
  - apply IH. intros a' b' Hin. apply Himp. now right.
Qed.

Lemma Forall2_In_l {A B : Type} (R : A -> B -> Prop) (l : list A) (l' : list B)
  (a : A) :
  Forall2 R l l' -> In a l -> exists b, In b l' /\ R a b.
Proof.
  induction 1 as [| a0 b0 l l' Hab Hrest IH]; intros Hin; [contradiction |].
  destruct Hin as [-> | Hin].
  - exists b0. split; [now left | assumption].
  - destruct (IH Hin) as (b & Hb & HR). exists b. split; [now right | assumption].
Qed.

Lemma Forall2_In_r {A B : Type} (R : A -> B -> Prop) (l : list A) (l' : list B)
  (b : B) :
  Forall2 R l l' -> In b l' -> exists a, In a l /\ R a b.
Proof.
  induction 1 as [| a0 b0 l l' Hab Hrest IH]; intros Hin; [contradiction |].
  destruct Hin as [-> | Hin].
  - exists a0. split; [now left | assumption].
  - destruct (IH Hin) as (a & Ha & HR). exists a. split; [now right | assumption].
Qed.

(** Two lists filtered by tests that agree entry by entry keep the same
    keys. *)
Lemma Forall2_filter_keys {A B K : Type} (ka : A -> K) (kb : B -> K)
  (p : A -> bool) (q : B -> bool) (l : list A) (l' : list B) :
  Forall2 (fun a b => kb b = ka a /\ q b = p a) l l' ->
  map kb (filter q l') = map ka (filter p l).
Proof.
  induction 1 as [| a b l l' [Hk Hq] Hrest IH]; [reflexivity |].
  cbn [filter]. rewrite Hq. destruct (p a); cbn [map]; now rewrite ?Hk, IH.
Qed.

Context {types : TypeIDs} {times : DayTimes}.

Variable this : SatArcMarker.SatArcMarker TypeID.
Variable epoch : DayTime.

Local Open Scope float_scope.

Ltac arc_unfold :=
  cbv beta iota zeta delta
    [on_cycle_slip entry_on_cycle_slip at_prevCSFlag at_satArc
     at_satArcChange set_satArc set_prevCSFlag set_satArcChange satArcMap
     satArcChangeMap prevCSFlagMap assign entry_of or_default fst snd].

Ltac arc_crunch :=
  repeat (cbv beta iota zeta;
          repeat match goal with
                 | H : _ = _ |- _ => rewrite H
                 end;
          rewrite ?SatID_eqb_refl;
          try match goal with
              | H : ?b = _ |- context [if ?b then _ else _] => rewrite H
              | |- context [if ?b then _ else _] => destruct b eqn:?
              end);
  try reflexivity;
  try (rewrite SatID_eqb_refl in *; discriminate).

(** The cycle-slip block, seen from the entries of its satellite. *)
Lemma on_cycle_slip_entry (m : ArcMaps) (sat : SatID) :
  (entry_of (fst (on_cycle_slip this epoch m sat)) sat,
   snd (on_cycle_slip this epoch m sat))
  = entry_on_cycle_slip this epoch sat (entry_of m sat).
Proof.
  destruct m as [cm am pm]. arc_unfold.
  destruct (am sat) eqn:Ea; destruct (pm sat) eqn:Ep; destruct (cm sat) eqn:Ec;
    arc_crunch.
Qed.

(** The cycle-slip block leaves the entries of every other satellite. *)
Lemma on_cycle_slip_frame (m : ArcMaps) (sat sat' : SatID) :
  SatID_eqb sat' sat = false ->
  entry_of (fst (on_cycle_slip this epoch m sat)) sat' = entry_of m sat'.
Proof.
  intros Hne. destruct m as [cm am pm]. arc_unfold.
  destruct (am sat) eqn:Ea; destruct (pm sat) eqn:Ep; destruct (cm sat) eqn:Ec;
    arc_crunch.
Qed.

(** One turn of the loop, seen from the entries of its satellite. *)
Lemma loop_body_entry (m : ArcMaps) (sat : SatID) (tvm : typeValueMap)
  (flag : double) :
  tvm (SatArcMarker.watchCSFlag this) = Some flag ->
  exists m1 arc rejected,
    loop_body this epoch m sat tvm = (m1, assignType tvm satArc arc, rejected)
    /\ entry_step this epoch sat (entry_of m sat) flag
       = (entry_of m1 sat, arc, rejected).
Proof.
  intros Hflag. unfold loop_body, entry_step.
  rewrite Hflag.
  assert (Hslip :
    (if Double.gt flag 0.0
     then entry_on_cycle_slip this epoch sat (entry_of m sat)
     else (entry_of m sat, false))
    = (entry_of
         (fst (if Double.gt flag 0.0 then on_cycle_slip this epoch m sat
               else (m, false))) sat,
       snd (if Double.gt flag 0.0 then on_cycle_slip this epoch m sat
            else (m, false)))).
  { destruct (Double.gt flag 0.0); [now rewrite on_cycle_slip_entry | reflexivity]. }
  rewrite Hslip. clear Hslip.
  destruct (if Double.gt flag 0.0 then on_cycle_slip this epoch m sat
            else (m, false)) as [m2 rej].
  cbn [fst snd]. destruct m2 as [cm am pm].
  unfold assignType at 1.
  destruct (TypeID_eq_dec (SatArcMarker.watchCSFlag this) satArc) as [Heq | Hne];
    rewrite ?Hflag;
    cbv beta iota zeta delta
      [at_satArc set_satArc set_prevCSFlag satArcMap satArcChangeMap
       prevCSFlagMap assign entry_of or_default fst snd];
    destruct (am sat) eqn:Ea; cbv beta iota zeta; rewrite ?SatID_eqb_refl;
      do 3 eexists; (split; [reflexivity |]); cbv beta iota zeta;
      rewrite ?SatID_eqb_refl, ?Ea; reflexivity.
Qed.

(** An entry without the watched type is rejected and nothing else is
    done. *)
Lemma loop_body_unflagged (m : ArcMaps) (sat : SatID) (tvm : typeValueMap) :
  tvm (SatArcMarker.watchCSFlag this) = None ->
  loop_body this epoch m sat tvm = (m, tvm, true).
Proof. intros Hflag. unfold loop_body. now rewrite Hflag. Qed.

(** One turn of the loop leaves the entries of every other satellite. *)
Lemma loop_body_frame (m : ArcMaps) (sat sat' : SatID) (tvm : typeValueMap) :
  SatID_eqb sat' sat = false ->
  entry_of (fst (fst (loop_body this epoch m sat tvm))) sat' = entry_of m sat'.
Proof.
  intros Hne. unfold loop_body.
  destruct (tvm (SatArcMarker.watchCSFlag this)) as [flag |]; [| reflexivity].
  assert (Hslip :
    entry_of
      (fst (if Double.gt flag 0.0 then on_cycle_slip this epoch m sat
            else (m, false))) sat'
    = entry_of m sat').
  { destruct (Double.gt flag 0.0); [now apply on_cycle_slip_frame | reflexivity]. }
  destruct (if Double.gt flag 0.0 then on_cycle_slip this epoch m sat
            else (m, false)) as [m2 rej].
  cbn [fst] in Hslip. rewrite <- Hslip. destruct m2 as [cm am pm].
  cbv beta iota zeta delta
    [at_satArc set_satArc set_prevCSFlag satArcMap satArcChangeMap
     prevCSFlagMap assign entry_of or_default fst snd].
  destruct (am sat);
    destruct (assignType tvm satArc _ (SatArcMarker.watchCSFlag this));
    cbv beta iota zeta; rewrite ?Hne; reflexivity.
Qed.

(** One turn of the loop reads the maps at its own satellite only. *)
Lemma loop_body_local (m mi : ArcMaps) (sat : SatID) (tvm : typeValueMap) :
  entry_of mi sat = entry_of m sat ->
  exists m1,
    loop_body this epoch m sat tvm
    = (m1, snd (fst (loop_body this epoch mi sat tvm)),
       snd (loop_body this epoch mi sat tvm))
    /\ entry_of m1 sat = entry_of (fst (fst (loop_body this epoch mi sat tvm))) sat.
Proof.
  intros Hentry.
  destruct (tvm (SatArcMarker.watchCSFlag this)) as [flag |] eqn:Hflag.
  - destruct (loop_body_entry m sat tvm flag Hflag) as (m1 & arc & r & Hb & Hs).
    destruct (loop_body_entry mi sat tvm flag Hflag) as (m1' & arc' & r' & Hb' & Hs').
    rewrite Hentry, Hs in Hs'.
    pose proof (f_equal (fun x => fst (fst x)) Hs') as He.
    pose proof (f_equal (fun x => snd (fst x)) Hs') as Ha.
    pose proof (f_equal snd Hs') as Hr.
    cbn [fst snd] in He, Ha, Hr. subst arc' r'.
    exists m1. rewrite Hb, Hb'. cbn [fst snd]. split; [reflexivity | assumption].
  - exists m. rewrite !loop_body_unflagged by assumption.
    cbn [fst snd]. split; [reflexivity | now symmetry].
Qed.

(** The loop leaves the entries of every satellite that is not in the
    data, and does not reject it. *)
Lemma loop_frame (gData : satTypeValueMap) :
  forall (m : ArcMaps) (rej : SatIDSet) (sat : SatID),
    ~ In sat (map fst gData) ->
    entry_of (fst (fst (loop this epoch m rej gData))) sat = entry_of m sat
    /\ mem sat (snd (fst (loop this epoch m rej gData))) = mem sat rej.
Proof.
  induction gData as [| [sat0 tvm0] rest IH]; intros m rej sat Hnotin;
    [split; reflexivity |].
  cbn [loop].
  pose proof (loop_body_frame m sat0 sat tvm0) as Hbody.
  destruct (loop_body this epoch m sat0 tvm0) as [[m1 t1] r].
  match goal with
  | |- context [loop this epoch m1 ?rj rest] => set (rej1 := rj)
  end.
  specialize (IH m1 rej1 sat).
  destruct (loop this epoch m1 rej1 rest) as [[m2 rej2] out2].
  cbn [fst snd] in *. cbn [map fst] in Hnotin.
  assert (Hne : SatID_eqb sat sat0 = false).
  { apply SatID_eqb_neq. intros ->. apply Hnotin. now left. }
  destruct IH as [IHe IHr]; [intros Hin; apply Hnotin; now right |].
  rewrite IHe, IHr. split; [now apply Hbody |].
  subst rej1. destruct r; [| reflexivity]. now rewrite mem_cons, Hne.
Qed.

(** The loop, entry by entry: each entry keeps its key and is handled by one
    turn of the loop that, as far as its satellite is concerned, starts from
    the initial maps; that turn decides the final entries of the satellite
    and its membership in the rejected set. *)
Lemma loop_entries (gData : satTypeValueMap) :
  forall (m : ArcMaps) (rej : SatIDSet) (m' : ArcMaps) (rej' : SatIDSet)
         (out : satTypeValueMap),
    NoDup (map fst gData) ->
    loop this epoch m rej gData = (m', rej', out) ->
    Forall2
      (fun e o =>
         fst o = fst e
         /\ exists m1 r,
              loop_body this epoch m (fst e) (snd e) = (m1, snd o, r)
              /\ entry_of m' (fst e) = entry_of m1 (fst e)
              /\ mem (fst e) rej' = r || mem (fst e) rej)
      gData out.
Proof.
  induction gData as [| [sat0 tvm0] rest IH]; intros m rej m' rej' out Hnodup.
  - cbn [loop]. intros Heq. injection Heq as <- <- <-. constructor.
  - cbn [loop].
    pose proof (fun sat' => loop_body_frame m sat0 sat' tvm0) as Hframe0.
    destruct (loop_body this epoch m sat0 tvm0) as [[m1 t1] r] eqn:Hbody.
    cbn [fst] in Hframe0.
    match goal with
    | |- context [loop this epoch m1 ?rj rest] => set (rej1 := rj)
    end.
    pose proof (loop_frame rest m1 rej1 sat0) as Hframe.
    destruct (loop this epoch m1 rej1 rest) as [[m2 rej2] out2] eqn:Hloop.
    cbn [fst snd] in Hframe.
    intros Heq. injection Heq as <- <- <-.
    cbn [map fst] in Hnodup. apply NoDup_cons_iff in Hnodup.
    destruct Hnodup as [Hfresh Hnodup].
    specialize (IH _ _ _ _ _ Hnodup Hloop).
    constructor.
    + split; [reflexivity |]. exists m1, r. cbn [fst snd].
      destruct (Hframe Hfresh) as [He Hr].
      split; [exact Hbody |]. split; [assumption |].
      rewrite Hr. subst rej1. destruct r; [| reflexivity].
      now rewrite mem_cons, SatID_eqb_refl.
    + apply (Forall2_impl_In _ _ _ _ IH).
      intros e o Hin (Hkey & m3 & r3 & Hb & Hm' & Hrej).
      assert (Hne : SatID_eqb (fst e) sat0 = false).
      { apply SatID_eqb_neq. intros Heq. apply Hfresh. rewrite <- Heq.
        now apply in_map. }
      split; [assumption |].
      destruct (loop_body_local m m1 (fst e) (snd e)) as (m4 & Hb4 & He4).
      { now apply Hframe0. }
      rewrite Hb in Hb4, He4. cbn [fst snd] in Hb4, He4.
      exists m4, r3. split; [assumption |]. split; [congruence |].
      rewrite Hrej. subst rej1. destruct r; [| reflexivity].
      now rewrite mem_cons, Hne.
Qed.

(** [Process] is the loop followed by the removal of the rejected set. *)
Lemma Process_unfold (epochflag : Z) (m : ArcMaps) (gData : satTypeValueMap) :
  Process this epoch epochflag m gData
  = (fst (fst (loop this epoch m [] gData)),
     removeSatID (snd (loop this epoch m [] gData))
       (snd (fst (loop this epoch m [] gData)))).
Proof. unfold Process. now destruct (loop this epoch m [] gData) as [[m2 rej2] full]. Qed.

Lemma In_removeSatID (entry : SatID * typeValueMap) (full : satTypeValueMap)
  (rej : SatIDSet) :
  In entry (removeSatID full rej) <-> In entry full /\ mem (fst entry) rej = false.
Proof. unfold removeSatID. now rewrite filter_In, negb_true_iff. Qed.

Lemma In_keys_removeSatID (sat : SatID) (full : satTypeValueMap) (rej : SatIDSet) :
  In sat (map fst (removeSatID full rej)) -> mem sat rej = false.
Proof.
  rewrite in_map_iff. intros (entry & <- & Hin).
  now apply In_removeSatID in Hin.
Qed.

(** [Process] handles each satellite of the data by one turn of the loop
    that, for this satellite, starts from the maps as they were before the
    call. *)
Lemma Process_turn (epochflag : Z) (m m' : ArcMaps) (gData out : satTypeValueMap)
  (sat : SatID) (tvm : typeValueMap) :
  NoDup (map fst gData) ->
  Process this epoch epochflag m gData = (m', out) ->
  In (sat, tvm) gData ->
  exists m1 t1 r,
    loop_body this epoch m sat tvm = (m1, t1, r)
    /\ entry_of m' sat = entry_of m1 sat
    /\ (r = false -> In (sat, t1) out)
    /\ (r = true -> ~ In sat (map fst out)).
Proof.
  intros Hnodup Hrun Hin. rewrite Process_unfold in Hrun.
  destruct (loop this epoch m [] gData) as [[m2 rej2] full] eqn:Hloop.
  cbn [fst snd] in Hrun. injection Hrun as <- <-.
  pose proof (loop_entries gData m [] m2 rej2 full Hnodup Hloop) as Hall.
  destruct (Forall2_In_l _ _ _ _ Hall Hin)
    as ([sat' t1] & Hout & Hkey & m1 & r & Hbody & Hentry & Hrej).
  cbn [fst snd] in *. subst sat'. rewrite orb_false_r in Hrej.
  exists m1, t1, r. split; [assumption |]. split; [assumption |]. split.
  - intros ->. apply In_removeSatID. now split.
  - intros -> Hkept. apply In_keys_removeSatID in Hkept. congruence.
Qed.

(** Every entry [Process] leaves in the data is the outcome of such a turn
    that did not reject its satellite. *)
Lemma Process_kept (epochflag : Z) (m m' : ArcMaps) (gData out : satTypeValueMap)
  (sat : SatID) (t1 : typeValueMap) :
  NoDup (map fst gData) ->
  Process this epoch epochflag m gData = (m', out) ->
  In (sat, t1) out ->
  exists tvm m1,
    In (sat, tvm) gData
    /\ loop_body this epoch m sat tvm = (m1, t1, false)
    /\ entry_of m' sat = entry_of m1 sat.
Proof.
  intros Hnodup Hrun Hin. rewrite Process_unfold in Hrun.
  destruct (loop this epoch m [] gData) as [[m2 rej2] full] eqn:Hloop.
  cbn [fst snd] in Hrun. injection Hrun as <- <-.
  pose proof (loop_entries gData m [] m2 rej2 full Hnodup Hloop) as Hall.
  apply In_removeSatID in Hin. destruct Hin as [Hin Hmem].
  destruct (Forall2_In_r _ _ _ _ Hall Hin)
    as ([sat' tvm] & Hdata & Hkey & m1 & r & Hbody & Hentry & Hrej).
  cbn [fst snd] in *. subst sat'. rewrite orb_false_r in Hrej.
  exists tvm, m1. split; [assumption |]. split; [congruence | assumption].
Qed.

(** A turn of the loop on an entry that holds the watched type, in terms of
    the entries of its satellite. *)
Lemma loop_body_flagged (m m1 : ArcMaps) (sat : SatID) (tvm t1 : typeValueMap)
  (flag : double) (r : bool) :
  tvm (SatArcMarker.watchCSFlag this) = Some flag ->
  loop_body this epoch m sat tvm = (m1, t1, r) ->
  exists arc,
    t1 = assignType tvm satArc arc
    /\ entry_step this epoch sat (entry_of m sat) flag = (entry_of m1 sat, arc, r).
Proof.
  intros Hflag Hbody.
  destruct (loop_body_entry m sat tvm flag Hflag) as (m1' & arc & r' & Hb & Hs).
  rewrite Hbody in Hb. injection Hb as -> -> ->.
  exists arc. split; [reflexivity | assumption].
Qed.

(** [Process] on a satellite whose entry holds the watched type. *)
Lemma Process_flagged (epochflag : Z) (m m' : ArcMaps)
  (gData out : satTypeValueMap) (sat : SatID) (tvm : typeValueMap)
  (flag : double) :
  NoDup (map fst gData) ->
  Process this epoch epochflag m gData = (m', out) ->
  In (sat, tvm) gData ->
  tvm (SatArcMarker.watchCSFlag this) = Some flag ->
  exists arc r,
    entry_step this epoch sat (entry_of m sat) flag = (entry_of m' sat, arc, r)
    /\ (r = false -> In (sat, assignType tvm satArc arc) out)
    /\ (r = true -> ~ In sat (map fst out)).
Proof.
  intros Hnodup Hrun Hin Hflag.
  destruct (Process_turn _ _ _ _ _ _ _ Hnodup Hrun Hin)
    as (m1 & t1 & r & Hbody & Hentry & Hkeep & Hdrop).
  destruct (loop_body_flagged _ _ _ _ _ _ _ Hflag Hbody) as (arc & -> & Hstep).
  exists arc, r. rewrite Hentry. now repeat split.
Qed.

(** X4. [Process] treats the satellites of the data independently of each
    other: for each entry, the three map entries its satellite ends with,
    the values it ends with and whether it stays in the data are those of
    one turn of the loop run on the maps as they were before the call. *)
Theorem Process_one_turn_per_satellite (epochflag : Z) (m m' : ArcMaps)
  (gData out : satTypeValueMap) (sat : SatID) (tvm : typeValueMap) :
  NoDup (map fst gData) ->
  Process this epoch epochflag m gData = (m', out) ->
  In (sat, tvm) gData ->
  exists m1 t1 rejected,
    loop_body this epoch m sat tvm = (m1, t1, rejected)
    /\ entry_of m' sat = entry_of m1 sat
    /\ (In sat (map fst out) <-> rejected = false)
    /\ (rejected = false -> In (sat, t1) out).
Proof.
  intros Hnodup Hrun Hin.
  destruct (Process_turn _ _ _ _ _ _ _ Hnodup Hrun Hin)
    as (m1 & t1 & r & Hbody & Hentry & Hkeep & Hdrop).
  exists m1, t1, r. split; [assumption |]. split; [assumption |].
  split; [| assumption]. split.
  - intros Hkept. destruct r; [now destruct Hdrop | reflexivity].
  - intros Hr. apply (in_map fst) in Hkeep; assumption.
Qed.

(** X5. Every entry of the data [Process] returns is an entry of the data
    it was given that holds the watched type, with the value of type
    [satArc] set to the arc number the object now stores for the satellite
    and no other value changed. *)
Theorem Process_output_entries (epochflag : Z) (m m' : ArcMaps)
  (gData out : satTypeValueMap) (sat : SatID) (tvm' : typeValueMap) :
  NoDup (map fst gData) ->
  Process this epoch epochflag m gData = (m', out) ->
  In (sat, tvm') out ->
  exists tvm flag arc,
    In (sat, tvm) gData
    /\ tvm (SatArcMarker.watchCSFlag this) = Some flag
    /\ satArcMap m' sat = Some arc
    /\ tvm' = assignType tvm satArc arc.
Proof.
  intros Hnodup Hrun Hin.
  destruct (Process_kept _ _ _ _ _ _ _ Hnodup Hrun Hin)
    as (tvm & m1 & Hdata & Hbody & Hentry).
  destruct (tvm (SatArcMarker.watchCSFlag this)) as [flag |] eqn:Hflag.
  - destruct (loop_body_flagged _ _ _ _ _ _ _ Hflag Hbody) as (arc & -> & Hstep).
    exists tvm, flag, arc. split; [assumption |]. split; [assumption |].
    split; [| reflexivity].
    rewrite <- Hentry in Hstep. unfold entry_step in Hstep.
    destruct (if Double.gt flag 0.0
              then entry_on_cycle_slip this epoch sat (entry_of m sat)
              else (entry_of m sat, false)) as [[[c a] p] rj].
    injection Hstep as _ Ha _ Harc _. now rewrite <- Ha, Harc.
  - rewrite (loop_body_unflagged _ _ _ Hflag) in Hbody. discriminate.
Qed.

(** X6. A satellite whose entry does not hold the watched type is removed
    from the data, and the three maps keep what they held for it. *)
Theorem Process_removes_unflagged (epochflag : Z) (m m' : ArcMaps)
  (gData out : satTypeValueMap) (sat : SatID) (tvm : typeValueMap) :
  NoDup (map fst gData) ->
  Process this epoch epochflag m gData = (m', out) ->
  In (sat, tvm) gData ->
  tvm (SatArcMarker.watchCSFlag this) = None ->
  ~ In sat (map fst out) /\ entry_of m' sat = entry_of m sat.
Proof.
  intros Hnodup Hrun Hin Hflag.
  destruct (Process_turn _ _ _ _ _ _ _ Hnodup Hrun Hin)
    as (m1 & t1 & r & Hbody & Hentry & Hkeep & Hdrop).
  rewrite (loop_body_unflagged _ _ _ Hflag) in Hbody.
  injection Hbody as <- <- <-. split; [now apply Hdrop | assumption].
Qed.

(** Without deletion of unstable satellites a turn of the loop rejects
    only for a missing flag. *)
Lemma loop_body_keeps (m : ArcMaps) (sat : SatID) (tvm : typeValueMap)
  (flag : double) :
  SatArcMarker.deleteUnstableSats this = false ->
  tvm (SatArcMarker.watchCSFlag this) = Some flag ->
  snd (loop_body this epoch m sat tvm) = false.
Proof.
  intros Hdel Hflag.
  destruct (loop_body_entry m sat tvm flag Hflag) as (m1 & arc & r & -> & Hs).
  cbn [snd]. unfold entry_step, entry_on_cycle_slip in Hs. rewrite Hdel in Hs.
  destruct (entry_of m sat) as [[c a] p].
  destruct (Double.gt flag 0.0); [| now injection Hs].
  destruct a;
    repeat match type of Hs with
           | context [if ?b then _ else _] => destruct b
           end;
    now injection Hs.
Qed.

(** X7. When unstable satellites are not to be deleted, [Process] keeps
    exactly the satellites whose entries hold the watched type, in their
    order. *)
Theorem Process_keeps_flagged (epochflag : Z) (m m' : ArcMaps)
  (gData out : satTypeValueMap) :
  NoDup (map fst gData) ->
  SatArcMarker.deleteUnstableSats this = false ->
  Process this epoch epochflag m gData = (m', out) ->
  map fst out
  = map fst
      (filter
         (fun entry =>
            match snd entry (SatArcMarker.watchCSFlag this) with
            | Some _ => true
            | None => false
            end) gData).
Proof.
  intros Hnodup Hdel Hrun. rewrite Process_unfold in Hrun.
  destruct (loop this epoch m [] gData) as [[m2 rej2] full] eqn:Hloop.
  cbn [fst snd] in Hrun. injection Hrun as <- <-.
  pose proof (loop_entries gData m [] m2 rej2 full Hnodup Hloop) as Hall.
  unfold removeSatID. apply Forall2_filter_keys.
  apply (Forall2_impl_In _ _ _ _ Hall).
  intros [sat tvm] [sat' t1] _ (Hkey & m1 & r & Hbody & _ & Hrej).
  cbn [fst snd] in *. split; [assumption |].
  rewrite Hkey, Hrej, orb_false_r.
  destruct (tvm (SatArcMarker.watchCSFlag this)) as [flag |] eqn:Hflag.
  - pose proof (loop_body_keeps m sat tvm flag Hdel Hflag) as Hkeep.
    rewrite Hbody in Hkeep. cbn [snd] in Hkeep. now rewrite Hkeep.
  - rewrite (loop_body_unflagged _ _ _ Hflag) in Hbody.
    now injection Hbody as <- <- <-.
Qed.

(** X8. [Process] leaves what the three maps hold for every satellite that
    is not in the data. *)
Theorem Process_frame (epochflag : Z) (m m' : ArcMaps)
  (gData out : satTypeValueMap) (sat : SatID) :
  Process this epoch epochflag m gData = (m', out) ->
  ~ In sat (map fst gData) ->
  entry_of m' sat = entry_of m sat.
Proof.
  intros Hrun Hnotin. rewrite Process_unfold in Hrun.
  injection Hrun as <- _. now apply loop_frame.
Qed.

(** X9. Without a cycle slip (flag not above zero) the satellite stays in
    the data, also when unstable satellites are deleted; its arc number is
    the stored one (0.0 is stored for a satellite the arc map did not hold),
    and its arc-change time is not touched. *)
Theorem Process_without_slip (epochflag : Z) (m m' : ArcMaps)
  (gData out : satTypeValueMap) (sat : SatID) (tvm : typeValueMap)
  (flag : double) :
  NoDup (map fst gData) ->
  Process this epoch epochflag m gData = (m', out) ->
  In (sat, tvm) gData ->
  tvm (SatArcMarker.watchCSFlag this) = Some flag ->
  Double.gt flag 0.0 = false ->
  In (sat, assignType tvm satArc (or_default (satArcMap m sat) 0.0)) out
  /\ satArcMap m' sat = Some (or_default (satArcMap m sat) 0.0)
  /\ satArcChangeMap m' sat = satArcChangeMap m sat.
Proof.
  intros Hnodup Hrun Hin Hflag Hslip.
  destruct (Process_flagged _ _ _ _ _ _ _ _ Hnodup Hrun Hin Hflag)
    as (arc & r & Hstep & Hkeep & _).
  unfold entry_step in Hstep. rewrite Hslip in Hstep. unfold entry_of in Hstep.
  injection Hstep as Hc Ha _ Harc Hr. subst arc r.
  split; [now apply Hkeep | now split].
Qed.

(** X10. The arc number [Process] stores for a satellite of the data that
    holds the watched type: the stored number (0.0 for a satellite the arc
    map did not hold) plus one when there is a cycle slip, the previous flag
    is below one and the last arc change (the beginning of time for a
    satellite the arc map did not hold) is further back than the unstable
    period; the stored number otherwise. *)
Theorem Process_arc_number (epochflag : Z) (m m' : ArcMaps)
  (gData out : satTypeValueMap) (sat : SatID) (tvm : typeValueMap)
  (flag : double) :
  NoDup (map fst gData) ->
  Process this epoch epochflag m gData = (m', out) ->
  In (sat, tvm) gData ->
  tvm (SatArcMarker.watchCSFlag this) = Some flag ->
  satArcMap m' sat
  = Some
      (if Double.gt flag 0.0
          && PrimFloat.ltb (or_default (prevCSFlagMap m sat) 0.0) 1.0
          && Double.gt
               (fabs
                  (DayTime_diff epoch
                     match satArcMap m sat with
                     | None => BEGINNING_OF_TIME
                     | Some _ =>
                         or_default (satArcChangeMap m sat) (DayTime_default sat)
                     end))
               (SatArcMarker.unstablePeriod this)
       then or_default (satArcMap m sat) 0.0 + 1.0
       else or_default (satArcMap m sat) 0.0).
Proof.
  intros Hnodup Hrun Hin Hflag.
  destruct (Process_flagged _ _ _ _ _ _ _ _ Hnodup Hrun Hin Hflag)
    as (arc & r & Hstep & _ & _).
  unfold entry_step, entry_on_cycle_slip, entry_of in Hstep.
  destruct (Double.gt flag 0.0); cbn [andb];
    [| injection Hstep as _ Ha _ _ _; now rewrite <- Ha].
  destruct (satArcMap m sat) as [a |]; cbn [or_default] in *;
    destruct (PrimFloat.ltb (or_default (prevCSFlagMap m sat) 0.0) 1.0);
    cbn [andb];
    repeat match type of Hstep with
           | context [if ?b then _ else _] => destruct b
           end;
    injection Hstep as _ Ha _ _ _; now rewrite <- Ha.
Qed.

(** X11. After [Process], the previous-flag map holds the value of the
    watched type of every satellite of the data that has one; when the
    watched type is [satArc] itself, that value is the arc number just
    written into the entry. *)
Theorem Process_stores_flag (epochflag : Z) (m m' : ArcMaps)
  (gData out : satTypeValueMap) (sat : SatID) (tvm : typeValueMap)
  (flag : double) :
  NoDup (map fst gData) ->
  Process this epoch epochflag m gData = (m', out) ->
  In (sat, tvm) gData ->
  tvm (SatArcMarker.watchCSFlag this) = Some flag ->
  prevCSFlagMap m' sat
  = if TypeID_eq_dec (SatArcMarker.watchCSFlag this) satArc
    then satArcMap m' sat
    else Some flag.
Proof.
  intros Hnodup Hrun Hin Hflag.
  destruct (Process_flagged _ _ _ _ _ _ _ _ Hnodup Hrun Hin Hflag)
    as (arc & r & Hstep & _ & _).
  unfold entry_step in Hstep.
  destruct (if Double.gt flag 0.0
            then entry_on_cycle_slip this epoch sat (entry_of m sat)
            else (entry_of m sat, false)) as [[[c a] p] rj].
  injection Hstep as _ Ha Hp _ _. rewrite <- Ha, <- Hp.
  now destruct (TypeID_eq_dec (SatArcMarker.watchCSFlag this) satArc).
Qed.

(** X12. When unstable satellites are deleted, a satellite with a cycle
    slip stays in the data exactly when the arc-change time the object
    stores for it after the call is further back than the unstable
    period. *)
Theorem Process_rejection_rule (epochflag : Z) (m m' : ArcMaps)
  (gData out : satTypeValueMap) (sat : SatID) (tvm : typeValueMap)
  (flag : double) :
  NoDup (map fst gData) ->
  Process this epoch epochflag m gData = (m', out) ->
  In (sat, tvm) gData ->
  tvm (SatArcMarker.watchCSFlag this) = Some flag ->
  Double.gt flag 0.0 = true ->
  SatArcMarker.deleteUnstableSats this = true ->
  exists changed,
    satArcChangeMap m' sat = Some changed
    /\ (In sat (map fst out)
        <-> Double.le (fabs (DayTime_diff epoch changed))
                      (SatArcMarker.unstablePeriod this) = false).
Proof.
  intros Hnodup Hrun Hin Hflag Hslip Hdel.
  destruct (Process_flagged _ _ _ _ _ _ _ _ Hnodup Hrun Hin Hflag)
    as (arc & r & Hstep & Hkeep & Hdrop).
  assert (Hkept : In sat (map fst out) <-> r = false).
  { split.
    - intros Hk. destruct r; [now destruct Hdrop | reflexivity].
    - intros Hr. apply (in_map fst) in Hkeep; assumption. }
  unfold entry_step, entry_on_cycle_slip, entry_of in Hstep.
  rewrite Hslip, Hdel in Hstep.
  destruct (satArcMap m sat) as [a |];
    repeat match type of Hstep with
           | context [if ?b then _ else _] => destruct b
           end;
    injection Hstep as Hc _ _ _ Hr;
    eexists; (split; [symmetry; exact Hc |]); rewrite Hkept, <- Hr; reflexivity.
Qed.

(** X13. The first cycle slip of a satellite the object does not know, seen
    further from the beginning of time than the unstable period, opens arc
    1.0: the satellite stays in the data with this arc number, also when
    unstable satellites are deleted, and its arc-change time is the
    beginning of time, not the epoch. *)
Theorem Process_first_arc (epochflag : Z) (m m' : ArcMaps)
  (gData out : satTypeValueMap) (sat : SatID) (tvm : typeValueMap)
  (flag : double) :
  NoDup (map fst gData) ->
  Process this epoch epochflag m gData = (m', out) ->
  In (sat, tvm) gData ->
  tvm (SatArcMarker.watchCSFlag this) = Some flag ->
  Double.gt flag 0.0 = true ->
  satArcMap m sat = None ->
  prevCSFlagMap m sat = None ->
  Double.gt (fabs (DayTime_diff epoch BEGINNING_OF_TIME))
            (SatArcMarker.unstablePeriod this) = true ->
  In (sat, assignType tvm satArc 1.0) out
  /\ satArcMap m' sat = Some 1.0
  /\ satArcChangeMap m' sat = Some BEGINNING_OF_TIME.
Proof.
  intros Hnodup Hrun Hin Hflag Hslip Harc0 Hprev0 Hfar.
  destruct (Process_flagged _ _ _ _ _ _ _ _ Hnodup Hrun Hin Hflag)
    as (arc & r & Hstep & Hkeep & _).
  unfold entry_step, entry_on_cycle_slip, entry_of in Hstep.
  rewrite Hslip, Harc0, Hprev0 in Hstep. cbn [or_default] in Hstep.
  change (PrimFloat.ltb 0.0 1.0) with true in Hstep.
  rewrite Hfar in Hstep. cbn [or_default] in Hstep.
  change (0.0 + 1.0) with 1.0 in Hstep.
  change (Double.gt 1.0 1.0) with false in Hstep.
  destruct (SatArcMarker.deleteUnstableSats this);
    cbn [or_default] in Hstep; rewrite ?(gt_not_le _ _ Hfar) in Hstep;
    injection Hstep as Hc Ha _ Harc Hr; subst arc r;
    (split; [now apply Hkeep | now split]).
Qed.

(** X14. A cycle slip that opens a further arc (stored arc number [arc]
    with [arc + 1.0 > 1.0], previous flag below one, last arc change further
    back than the unstable period) stores the arc number [arc + 1.0] and
    moves the arc-change time to the epoch, whether unstable satellites are
    deleted or not; the satellite stays in the data when they are not
    deleted, and is removed from the data at this epoch when they are
    deleted (the epoch being within the unstable period of itself). *)
Theorem Process_new_arc_unstable (epochflag : Z) (m m' : ArcMaps)
  (gData out : satTypeValueMap) (sat : SatID) (tvm : typeValueMap)
  (flag arc prev : double) (changed : DayTime) :
  NoDup (map fst gData) ->
  Process this epoch epochflag m gData = (m', out) ->
  In (sat, tvm) gData ->
  tvm (SatArcMarker.watchCSFlag this) = Some flag ->
  Double.gt flag 0.0 = true ->
  satArcMap m sat = Some arc ->
  satArcChangeMap m sat = Some changed ->
  prevCSFlagMap m sat = Some prev ->
  PrimFloat.ltb prev 1.0 = true ->
  Double.gt (fabs (DayTime_diff epoch changed))
            (SatArcMarker.unstablePeriod this) = true ->
  Double.gt (arc + 1.0) 1.0 = true ->
  satArcMap m' sat = Some (arc + 1.0)
  /\ satArcChangeMap m' sat = Some epoch
  /\ (SatArcMarker.deleteUnstableSats this = false ->
      In (sat, assignType tvm satArc (arc + 1.0)) out)
  /\ (SatArcMarker.deleteUnstableSats this = true ->
      Double.le (fabs (DayTime_diff epoch epoch))
                (SatArcMarker.unstablePeriod this) = true ->
      ~ In sat (map fst out)).
Proof.
  intros Hnodup Hrun Hin Hflag Hslip Harc0 Hchange0 Hprev0 Hprev Hfar Hnext.
  destruct (Process_flagged _ _ _ _ _ _ _ _ Hnodup Hrun Hin Hflag)
    as (arc' & r & Hstep & Hkeep & Hdrop).
  unfold entry_step, entry_on_cycle_slip, entry_of in Hstep.
  rewrite Hslip, Harc0, Hchange0, Hprev0 in Hstep. cbn [or_default] in Hstep.
  rewrite Hprev, Hfar in Hstep. cbn [or_default] in Hstep.
  rewrite Hnext in Hstep.
  destruct (SatArcMarker.deleteUnstableSats this); cbn [or_default] in Hstep;
    injection Hstep as Hc Ha _ Harc Hr; subst arc';
    (split; [now symmetry |]); (split; [now symmetry |]); split;
    try discriminate.
  - intros _ Hself. apply Hdrop. now rewrite <- Hr.
  - intros _. apply Hkeep. now symmetry.
Qed.

(** X15. A cycle slip within the unstable period of the stored arc change
    does not open an arc: arc number and arc-change time stay, and the
    satellite is removed from the data exactly when unstable satellites are
    deleted. *)
Theorem Process_slip_while_unstable (epochflag : Z) (m m' : ArcMaps)
  (gData out : satTypeValueMap) (sat : SatID) (tvm : typeValueMap)
  (flag arc : double) (changed : DayTime) :
  NoDup (map fst gData) ->
  Process this epoch epochflag m gData = (m', out) ->
  In (sat, tvm) gData ->
  tvm (SatArcMarker.watchCSFlag this) = Some flag ->
  Double.gt flag 0.0 = true ->
  satArcMap m sat = Some arc ->
  satArcChangeMap m sat = Some changed ->
  Double.le (fabs (DayTime_diff epoch changed))
            (SatArcMarker.unstablePeriod this) = true ->
  satArcMap m' sat = Some arc
  /\ satArcChangeMap m' sat = Some changed
  /\ (In sat (map fst out) <-> SatArcMarker.deleteUnstableSats this = false).
Proof.
  intros Hnodup Hrun Hin Hflag Hslip Harc0 Hchange0 Hnear.
  destruct (Process_flagged _ _ _ _ _ _ _ _ Hnodup Hrun Hin Hflag)
    as (arc' & r & Hstep & Hkeep & Hdrop).
  assert (Hkept : In sat (map fst out) <-> r = false).
  { split.
    - intros Hk. destruct r; [now destruct Hdrop | reflexivity].
    - intros Hr. apply (in_map fst) in Hkeep; assumption. }
  unfold entry_step, entry_on_cycle_slip, entry_of in Hstep.
  rewrite Hslip, Harc0, Hchange0 in Hstep. cbn [or_default] in Hstep.
  rewrite (le_not_gt _ _ Hnear) in Hstep.
  destruct (PrimFloat.ltb (or_default (prevCSFlagMap m sat) 0.0) 1.0);
    destruct (SatArcMarker.deleteUnstableSats this);
    cbn [or_default] in Hstep; rewrite ?Hnear in Hstep;
    injection Hstep as Hc Ha _ _ Hr; rewrite Hkept, <- Hr;
    (split; [now symmetry |]); (split; [now symmetry |]);
    split; congruence.
Qed.

(** The members a turn of the loop leaves for a satellite that holds the
    watched type: an arc number and a previous flag. *)
Lemma entry_step_stored (sat : SatID) (e e' : SatEntry) (flag arc : double)
  (r : bool) :
  entry_step this epoch sat e flag = (e', arc, r) ->
  exists change prev, e' = (change, Some arc, Some prev).
Proof.
  unfold entry_step.
  destruct (if Double.gt flag 0.0 then entry_on_cycle_slip this epoch sat e
            else (e, false)) as [[[c a] p] rj].
  intros Heq. injection Heq as <- <- _. now eexists _, _.
Qed.

(** X16. [Process] keeps the arc map and the previous-flag map on the same
    satellites: if the two maps hold entries for the same satellites before
    the call, they do so after it. *)
Theorem Process_maps_domains (epochflag : Z) (m m' : ArcMaps)
  (gData out : satTypeValueMap) :
  NoDup (map fst gData) ->
  Process this epoch epochflag m gData = (m', out) ->
  (forall sat, satArcMap m sat = None <-> prevCSFlagMap m sat = None) ->
  forall sat, satArcMap m' sat = None <-> prevCSFlagMap m' sat = None.
Proof.
  intros Hnodup Hrun Hdom sat.
  assert (Hsame : entry_of m' sat = entry_of m sat ->
                  (satArcMap m' sat = None <-> prevCSFlagMap m' sat = None)).
  { unfold entry_of. intros Heq. injection Heq as _ -> ->. apply Hdom. }
  assert (Hdec : forall s s' : SatID, {s = s'} + {s <> s'}).
  { intros s s'. destruct (SatID_eqb s s') eqn:Heq.
    - left. now apply SatID_eqb_eq.
    - right. now apply SatID_eqb_neq. }
  destruct (in_dec Hdec sat (map fst gData)) as [Hin | Hnotin].
  - apply in_map_iff in Hin. destruct Hin as ([sat' tvm] & Hkey & Hin).
    cbn [fst] in Hkey. subst sat'.
    destruct (tvm (SatArcMarker.watchCSFlag this)) as [flag |] eqn:Hflag.
    + destruct (Process_flagged _ _ _ _ _ _ _ _ Hnodup Hrun Hin Hflag)
        as (arc & r & Hstep & _ & _).
      apply entry_step_stored in Hstep. destruct Hstep as (c & p & He).
      unfold entry_of in He. injection He as _ -> ->. split; discriminate.
    + apply Hsame.
      destruct (Process_turn _ _ _ _ _ _ _ Hnodup Hrun Hin)
        as (m1 & t1 & r & Hbody & Hentry & _ & _).
      rewrite (loop_body_unflagged _ _ _ Hflag) in Hbody.
      now injection Hbody as <- _ _.
  - apply Hsame. rewrite Process_unfold in Hrun.
    injection Hrun as <- _. now apply loop_frame.
Qed.

End ArcMarking.

Section ArcSequences.

Import SatArcProcess ArcEntry.

Context {types : TypeIDs} {times : DayTimes}.

Variable this : SatArcMarker.SatArcMarker TypeID.

Local Open Scope float_scope.

(** X17. A cycle slip that is flagged over consecutive epochs opens one arc
    only: when a call of [Process] saw a flag that is not below one for a
    satellite (the watched type not being [satArc]), the next call leaves
    the arc number of the satellite as it is, whatever the flag and the
    epoch. *)
Theorem Process_repeated_slip (epoch1 epoch2 : DayTime) (epochflag1 epochflag2 : Z)
  (m m1 m2 : ArcMaps) (gData1 out1 gData2 out2 : satTypeValueMap)
  (sat : SatID) (tvm1 tvm2 : typeValueMap) (flag1 flag2 : double) :
  SatArcMarker.watchCSFlag this <> satArc ->
  NoDup (map fst gData1) ->
  NoDup (map fst gData2) ->
  Process this epoch1 epochflag1 m gData1 = (m1, out1) ->
  Process this epoch2 epochflag2 m1 gData2 = (m2, out2) ->
  In (sat, tvm1) gData1 ->
  tvm1 (SatArcMarker.watchCSFlag this) = Some flag1 ->
  PrimFloat.ltb flag1 1.0 = false ->
  In (sat, tvm2) gData2 ->
  tvm2 (SatArcMarker.watchCSFlag this) = Some flag2 ->
  satArcMap m2 sat = satArcMap m1 sat.
Proof.
  intros Hwatch Hnodup1 Hnodup2 Hrun1 Hrun2 Hin1 Hflag1 Hhigh Hin2 Hflag2.
  destruct (Process_flagged _ _ _ _ _ _ _ _ _ _ Hnodup1 Hrun1 Hin1 Hflag1)
    as (arc1 & r1 & Hstep1 & _ & _).
  destruct (Process_flagged _ _ _ _ _ _ _ _ _ _ Hnodup2 Hrun2 Hin2 Hflag2)
    as (arc2 & r2 & Hstep2 & _ & _).
  unfold entry_step in Hstep1.
  destruct (if Double.gt flag1 0.0
            then entry_on_cycle_slip this epoch1 sat (entry_of m sat)
            else (entry_of m sat, false)) as [[[c a] p] rj].
  destruct (TypeID_eq_dec (SatArcMarker.watchCSFlag this) satArc)
    as [Heq | _]; [contradiction |].
  unfold entry_of in Hstep1. injection Hstep1 as _ Ha1 Hp1 _ _.
  unfold entry_step, entry_on_cycle_slip, entry_of in Hstep2.
  rewrite <- Ha1, <- Hp1 in Hstep2. cbn [or_default] in Hstep2.
  rewrite Hhigh in Hstep2.
  destruct (Double.gt flag2 0.0);
    [destruct (SatArcMarker.deleteUnstableSats this) |];
    injection Hstep2 as _ Ha2 _ _ _; now rewrite <- Ha2, <- Ha1.
Qed.

End ArcSequences.

Section ValidityAfterAdjustment.

Local Open Scope Z_scope.

(** A call of [adjustValidity] that returns was made on a loaded record. *)
Lemma adjustValidity_returns_loaded (eph eph' : BDSEphemeris) :
  adjustValidity eph = inr eph' -> dataLoadedFlag eph = true.
Proof.
  intros Hrun. destruct (dataLoadedFlag eph) eqn:Hflag; [reflexivity |].
  rewrite (adjustValidity_not_loaded eph Hflag) in Hrun. discriminate.
Qed.

(** The record [adjustValidity] leaves, member by member. *)
Lemma adjustValidity_record (eph eph' : BDSEphemeris) :
  adjustValidity eph = inr eph' ->
  eph' = set_endValid
           (set_beginValid eph
              (if transmitTime eph >? ctToe eph then transmitTime eph
               else ctToe eph))
           (ctToe eph + 3600).
Proof.
  intros Hrun. pose proof (adjustValidity_returns_loaded _ _ Hrun) as Hflag.
  unfold adjustValidity, OrbitEph_adjustValidity in Hrun.
  rewrite Hflag in Hrun. cbn [bind ret] in Hrun. injection Hrun as <-.
  unfold_time. cbn [beginValid transmitTime ctToe set_beginValid].
  rewrite Z.gtb_ltb.
  destruct (ctToe eph <? transmitTime eph); destruct eph; reflexivity.
Qed.

(** X18. [adjustValidity] writes the two ends of the validity window and
    nothing else: every other member of the record is as before the call. *)
Theorem adjustValidity_frame (eph eph' : BDSEphemeris) :
  adjustValidity eph = inr eph' ->
  set_endValid (set_beginValid eph' (beginValid eph)) (endValid eph) = eph.
Proof.
  intros Hrun. rewrite (adjustValidity_record _ _ Hrun).
  destruct eph; reflexivity.
Qed.

(** X19. [adjustValidity] is idempotent: called on the record it has left,
    it returns and leaves the same record. *)
Theorem adjustValidity_idempotent (eph eph' : BDSEphemeris) :
  adjustValidity eph = inr eph' -> adjustValidity eph' = inr eph'.
Proof.
  intros Hrun. pose proof (adjustValidity_returns_loaded _ _ Hrun) as Hflag.
  rewrite (adjustValidity_record _ _ Hrun).
  unfold adjustValidity, OrbitEph_adjustValidity.
  destruct eph as [loaded sat toe toc tx bv ev]. cbn in Hflag |- *.
  rewrite Hflag. cbn. unfold_time. rewrite Z.gtb_ltb.
  destruct (toe <? tx) eqn:Htx; cbn; rewrite ?Htx; reflexivity.
Qed.

(** X20. After [adjustValidity], [isValid] answers true exactly from the
    later of Toe and the transmit time up to and including one hour after
    Toe. *)
Theorem isValid_after_adjustValidity (eph eph' : BDSEphemeris) (ct : CommonTime) :
  adjustValidity eph = inr eph' ->
  (isValid eph' ct = true
   <-> Z.max (ctToe eph) (transmitTime eph) <= ct <= ctToe eph + 3600).
Proof.
  intros Hrun. rewrite (adjustValidity_record _ _ Hrun).
  rewrite isValid_unfold, andb_true_iff, !Z.leb_le.
  cbn [beginValid endValid set_beginValid set_endValid].
  destruct (Z.gtb_spec (transmitTime eph) (ctToe eph)); lia.
Qed.

End ValidityAfterAdjustment.

Section StoreResults.

Variable GalEphemeris : Type.
Variable findOrbitEph : SatID -> CommonTime -> option GalEphemeris.

Import GalEphemerisStore.

(** X21. [findEphemeris] returns a record exactly when the satellite is a
    BeiDou satellite and the table lookup finds this record for it, and
    raises InvalidRequest(Ephemeris not found) exactly when the satellite is
    a BeiDou satellite and the table lookup finds nothing. *)
Theorem findEphemeris_outcomes (sat : SatID) (t : CommonTime)
  (geph : GalEphemeris) :
  (findEphemeris GalEphemeris findOrbitEph sat t = inr geph
   <-> system sat = systemBeiDou /\ findOrbitEph sat t = Some geph)
  /\ (findEphemeris GalEphemeris findOrbitEph sat t
      = inl (InvalidRequest "Ephemeris not found")
      <-> system sat = systemBeiDou /\ findOrbitEph sat t = None).
Proof.
  unfold findEphemeris.
  destruct (SatelliteSystem_eqb (system sat) systemBeiDou) eqn:Hsys; cbn.
  - apply SatelliteSystem_eqb_eq in Hsys.
    destruct (findOrbitEph sat t) as [found |]; unfold ret, GPSTK_THROW;
      intuition congruence.
  - assert (Hne : system sat <> systemBeiDou).
    { intros Heq. apply SatelliteSystem_eqb_eq in Heq. congruence. }
    unfold GPSTK_THROW. intuition congruence.
Qed.

End StoreResults.

(* ------------------------------------------------------------------ *)
(** ** Arc marking and validity on concrete data *)

Section ArcRuns.

Import SatArcProcess ArcRecords.

Local Open Scope float_scope.

Ltac distinct_keys := repeat constructor; cbn; intuition discriminate.

(** Three epochs with the marker that deletes unstable satellites: G01
    opens arc 1 at second 1000 and is kept, is quiet at second 1030, and
    opens arc 2 at second 1060, where it is removed as unstable; G03 has no
    cycle-slip flag and is removed at once. *)
Example Process_three_epochs :
  map fst first_out = [G01; G02]
  /\ entry_of after_first G01 = (Some (second 0), Some 1.0, Some 1.0)
  /\ entry_of after_quiet G01 = (Some (second 0), Some 1.0, Some 0.0)
  /\ map fst slip_out = [G02]
  /\ entry_of after_slip G01 = (Some (second 1060), Some 2.0, Some 1.0)
  /\ entry_of after_slip G03 = (None, None, None).
Proof. vm_compute. repeat split. Qed.

Lemma Process_one_turn_per_satellite_witness :
  exists m1 t1 rejected,
    loop_body marker (second 1000) noArcs G01 slip = (m1, t1, rejected)
    /\ entry_of after_first G01 = entry_of m1 G01
    /\ (In G01 (map fst first_out) <-> rejected = false)
    /\ (rejected = false -> In (G01, t1) first_out).
Proof.
  apply (Process_one_turn_per_satellite marker (second 1000) 0%Z noArcs after_first
           first_epoch first_out G01 slip);
    [distinct_keys | reflexivity | now left].
Defined.

Lemma Process_output_entries_witness :
  exists tvm flag arc,
    In (G02, tvm) first_epoch
    /\ tvm (SatArcMarker.watchCSFlag marker) = Some flag
    /\ satArcMap after_first G02 = Some arc
    /\ assignType quiet satArc 0.0 = assignType tvm satArc arc.
Proof.
  apply (Process_output_entries marker (second 1000) 0%Z noArcs after_first
           first_epoch first_out G02 (assignType quiet satArc 0.0));
    [distinct_keys | reflexivity | right; left; reflexivity].
Defined.

Lemma Process_removes_unflagged_witness :
  ~ In G03 (map fst first_out) /\ entry_of after_first G03 = entry_of noArcs G03.
Proof.
  apply (Process_removes_unflagged marker (second 1000) 0%Z noArcs after_first
           first_epoch first_out G03 bare);
    [distinct_keys | reflexivity | right; right; left; reflexivity | reflexivity].
Defined.

Lemma Process_keeps_flagged_witness :
  map fst (snd (Process keeper (second 1000) 0 noArcs first_epoch)) = [G01; G02].
Proof.
  apply (Process_keeps_flagged keeper (second 1000) 0%Z noArcs
           (fst (Process keeper (second 1000) 0 noArcs first_epoch)) first_epoch
           (snd (Process keeper (second 1000) 0 noArcs first_epoch)));
    [distinct_keys | reflexivity | reflexivity].
Defined.

Lemma Process_frame_witness :
  entry_of after_quiet G03 = entry_of after_first G03.
Proof.
  apply (Process_frame marker (second 1030) 0%Z after_first after_quiet quiet_epoch
           (snd (Process marker (second 1030) 0 after_first quiet_epoch)) G03);
    [reflexivity | cbn; intuition discriminate].
Defined.

Lemma Process_without_slip_witness :
  In (G02, assignType quiet satArc 0.0) first_out
  /\ satArcMap after_first G02 = Some 0.0
  /\ satArcChangeMap after_first G02 = None.
Proof.
  apply (Process_without_slip marker (second 1000) 0%Z noArcs after_first first_epoch
           first_out G02 quiet 0.0);
    [distinct_keys | reflexivity | right; left; reflexivity | reflexivity
    | reflexivity].
Defined.

Lemma Process_arc_number_witness :
  satArcMap after_slip G01 = Some 2.0.
Proof.
  apply (Process_arc_number marker (second 1060) 0%Z after_quiet after_slip slip_epoch
           slip_out G01 slip 1.0);
    [distinct_keys | reflexivity | left; reflexivity | reflexivity].
Defined.

Lemma Process_stores_flag_witness :
  prevCSFlagMap after_first G01 = Some 1.0.
Proof.
  apply (Process_stores_flag marker (second 1000) 0%Z noArcs after_first first_epoch
           first_out G01 slip 1.0);
    [distinct_keys | reflexivity | left; reflexivity | reflexivity].
Defined.

Lemma Process_rejection_rule_witness :
  exists changed,
    satArcChangeMap after_slip G01 = Some changed
    /\ (In G01 (map fst slip_out)
        <-> Double.le (fabs (DayTime_diff (second 1060) changed))
                      (SatArcMarker.unstablePeriod marker) = false).
Proof.
  apply (Process_rejection_rule marker (second 1060) 0%Z after_quiet after_slip
           slip_epoch slip_out G01 slip 1.0);
    [distinct_keys | reflexivity | left; reflexivity | reflexivity
    | reflexivity | reflexivity].
Defined.

Lemma Process_first_arc_witness :
  In (G01, assignType slip satArc 1.0) first_out
  /\ satArcMap after_first G01 = Some 1.0
  /\ satArcChangeMap after_first G01 = Some BEGINNING_OF_TIME.
Proof.
  apply (Process_first_arc marker (second 1000) 0%Z noArcs after_first first_epoch
           first_out G01 slip 1.0);
    [distinct_keys | reflexivity | left; reflexivity | reflexivity
    | reflexivity | reflexivity | reflexivity | reflexivity].
Defined.

Lemma Process_new_arc_unstable_witness :
  satArcMap after_slip G01 = Some (1.0 + 1.0)
  /\ satArcChangeMap after_slip G01 = Some (second 1060)
  /\ (SatArcMarker.deleteUnstableSats marker = false ->
      In (G01, assignType slip satArc (1.0 + 1.0)) slip_out)
  /\ (SatArcMarker.deleteUnstableSats marker = true ->
      Double.le (fabs (DayTime_diff (second 1060) (second 1060)))
                (SatArcMarker.unstablePeriod marker) = true ->
      ~ In G01 (map fst slip_out)).
Proof.
  apply (Process_new_arc_unstable marker (second 1060) 0%Z after_quiet after_slip
           slip_epoch slip_out G01 slip 1.0 1.0 0.0 (second 0));
    [distinct_keys | reflexivity | left; reflexivity | reflexivity
    | reflexivity | reflexivity | reflexivity | reflexivity | reflexivity
    | reflexivity | reflexivity].
Defined.

(** The same slip seen by the marker that keeps unstable satellites: arc 2
    is opened and G01 stays in the data, and seen by the marker that deletes
    them: G01 is removed. *)
Example Process_new_arc_kept_or_removed :
  map fst (snd (Process keeper (second 1060) 0 after_quiet slip_epoch)) = [G01; G02]
  /\ satArcMap (fst (Process keeper (second 1060) 0 after_quiet slip_epoch)) G01
     = Some 2.0
  /\ map fst slip_out = [G02].
Proof. vm_compute. repeat split. Qed.

Lemma Process_slip_while_unstable_witness :
  satArcMap (fst (Process marker (second 1070) 0 after_slip slip_epoch)) G01 = Some 2.0
  /\ satArcChangeMap (fst (Process marker (second 1070) 0 after_slip slip_epoch)) G01
     = Some (second 1060)
  /\ (In G01 (map fst (snd (Process marker (second 1070) 0 after_slip slip_epoch)))
      <-> SatArcMarker.deleteUnstableSats marker = false).
Proof.
  apply (Process_slip_while_unstable marker (second 1070) 0%Z after_slip
           (fst (Process marker (second 1070) 0 after_slip slip_epoch)) slip_epoch
           (snd (Process marker (second 1070) 0 after_slip slip_epoch)) G01 slip
           1.0 2.0 (second 1060));
    [distinct_keys | reflexivity | left; reflexivity | reflexivity
    | reflexivity | reflexivity | reflexivity | reflexivity].
Defined.

Lemma Process_maps_domains_witness :
  satArcMap after_first G03 = None <-> prevCSFlagMap after_first G03 = None.
Proof.
  apply (Process_maps_domains marker (second 1000) 0%Z noArcs after_first first_epoch
           first_out);
    [distinct_keys | reflexivity | intros sat; split; reflexivity].
Defined.

Lemma Process_repeated_slip_witness :
  satArcMap (fst (Process marker (second 1060) 0 after_first slip_epoch)) G01
  = satArcMap after_first G01.
Proof.
  apply (Process_repeated_slip marker (second 1000) (second 1060) 0%Z 0%Z noArcs after_first
           (fst (Process marker (second 1060) 0 after_first slip_epoch))
           first_epoch first_out slip_epoch
           (snd (Process marker (second 1060) 0 after_first slip_epoch))
           G01 slip slip 1.0 1.0);
    [discriminate | distinct_keys | distinct_keys | reflexivity | reflexivity
    | left; reflexivity | reflexivity | reflexivity | left; reflexivity
    | reflexivity].
Defined.

Lemma adjustValidity_frame_witness :
  set_endValid (set_beginValid late_tx_adjusted (beginValid late_tx))
    (endValid late_tx)
  = late_tx.
Proof. apply (adjustValidity_frame late_tx late_tx_adjusted). reflexivity. Defined.

Lemma adjustValidity_idempotent_witness :
  adjustValidity late_tx_adjusted = inr late_tx_adjusted.
Proof.
  apply (adjustValidity_idempotent late_tx late_tx_adjusted). reflexivity.
Defined.

Lemma isValid_after_adjustValidity_witness :
  isValid late_tx_adjusted (T0 + 120)%Z = true
  <-> (Z.max (ctToe late_tx) (transmitTime late_tx) <= T0 + 120
       <= ctToe late_tx + 3600)%Z.
Proof.
  apply (isValid_after_adjustValidity late_tx late_tx_adjusted (T0 + 120)%Z).
  reflexivity.
Defined.

End ArcRuns.
